(** * Task tracker backend (backend/app/app.py)

    A shallow embedding of the FastAPI task service: the user directory,
    the priority validator, the [Task] table behind a SQLModel session, and
    the four endpoints [list_tasks], [create_task], [update_task] and
    [delete_task], followed by the properties of the specification.

    Conventions of the embedding.
    - A Python [str] is a [string]; a character is a code point below 256.
    - A [date] is its proleptic ordinal (a [Z]); a UTC [datetime] is a
      number of microseconds (a [Z]).  Python compares both by these numbers.
    - [Optional[T]] is [option T].
    - A raised [HTTPException] is the left injection of the result.
    - The clock ([date.today()], [datetime.now(tz=utc)]) is an input of the
      endpoint that reads it. *)

From Stdlib Require Import ZArith Ascii String List Bool Lia.
From stdpp Require Import base option list sorting gmap strings fin_maps.

Local Open Scope string_scope.
Local Open Scope Z_scope.

(** ** Python string methods *)

Module PyStr.

(** [str.isspace] on one code point below 256: TAB..CR, FS..US, SPACE,
    NEL and NBSP. *)
Definition isspace (c : ascii) : bool :=
  let n := N_of_ascii c in
  ((9 <=? n) && (n <=? 13) || (28 <=? n) && (n <=? 32)
   || (n =? 133) || (n =? 160))%N.

(** [str.lower] on one code point below 256: A..Z and the upper-case
    letters of Latin-1 (all of 0xC0..0xDE but the multiplication sign). *)
Definition lower_char (c : ascii) : ascii :=
  let n := N_of_ascii c in
  if ((65 <=? n) && (n <=? 90)
      || (192 <=? n) && (n <=? 222) && negb (n =? 215))%N
  then ascii_of_N (n + 32) else c.

Fixpoint lower (s : string) : string :=
  match s with
  | EmptyString => EmptyString
  | String c r => String (lower_char c) (lower r)
  end.

Fixpoint lstrip (s : string) : string :=
  match s with
  | EmptyString => EmptyString
  | String c r => if isspace c then lstrip r else s
  end.

(** [s.rstrip()]: the string without its trailing white space. *)
Fixpoint rstrip (s : string) : string :=
  match s with
  | EmptyString => EmptyString
  | String c r =>
      match rstrip r with
      | EmptyString => if isspace c then EmptyString else String c EmptyString
      | String c' r' => String c (String c' r')
      end
  end.

(** [s.strip()] with no argument. *)
Definition strip (s : string) : string := rstrip (lstrip s).

(** Truth value of a string: [bool(s)]. *)
Definition truthy (s : string) : bool :=
  match s with EmptyString => false | String _ _ => true end.

(** Every character is white space ([""] included). *)
Fixpoint all_space (s : string) : bool :=
  match s with
  | EmptyString => true
  | String c r => isspace c && all_space r
  end.

End PyStr.

(** ** Results of an endpoint *)

Record HTTPException := mkHTTPException {
  status_code : Z;
  detail : string
}.

Definition Result (A : Type) : Type := (HTTPException + A)%type.

Definition is_InvalidInput {A} (r : Result A) : Prop :=
  exists d, r = inl (mkHTTPException 400 d).

Definition is_NotFound {A} (r : Result A) : Prop :=
  exists d, r = inl (mkHTTPException 404 d).

(** ** The user directory *)

Record Member := mkMember { member_id : Z; member_name : string }.

Definition TEAM_MEMBERS : list Member :=
  [ mkMember 1 "Harry"; mkMember 2 "John";
    mkMember 3 "Peter"; mkMember 4 "Tom" ].

Definition ALLOWED_PRIORITIES : list string := [ "low"; "medium"; "high" ].

Definition user_exists (user_id : option Z) : bool :=
  match user_id with
  | None => false
  | Some uid => existsb (fun user => member_id user =? uid) TEAM_MEMBERS
  end.

(** [val in ALLOWED_PRIORITIES]. *)
Definition in_allowed (val : string) : bool :=
  existsb (String.eqb val) ALLOWED_PRIORITIES.

Definition validate_priority (value : option string) : Result string :=
  match value with
  | None => inr "medium"
  | Some v =>
      let val := PyStr.lower v in
      if negb (in_allowed val)
      then inl (mkHTTPException 400 "priority must be one of low|medium|high")
      else inr val
  end.

(** ** The [Task] table and the request schemas *)

Module Task.

Record t := mk {
  id : option Z;
  title : string;
  description : string;
  completed : bool;
  assignee_id : option Z;
  priority : string;
  due_date : option Z;
  created_at : Z;
  updated_at : Z
}.

(** Attribute assignment [task.field = v]. *)
Definition set_id v (x : t) : t :=
  mk v (title x) (description x) (completed x) (assignee_id x)
     (priority x) (due_date x) (created_at x) (updated_at x).
Definition set_title v (x : t) : t :=
  mk (id x) v (description x) (completed x) (assignee_id x)
     (priority x) (due_date x) (created_at x) (updated_at x).
Definition set_description v (x : t) : t :=
  mk (id x) (title x) v (completed x) (assignee_id x)
     (priority x) (due_date x) (created_at x) (updated_at x).
Definition set_completed v (x : t) : t :=
  mk (id x) (title x) (description x) v (assignee_id x)
     (priority x) (due_date x) (created_at x) (updated_at x).
Definition set_assignee_id v (x : t) : t :=
  mk (id x) (title x) (description x) (completed x) v
     (priority x) (due_date x) (created_at x) (updated_at x).
Definition set_priority v (x : t) : t :=
  mk (id x) (title x) (description x) (completed x) (assignee_id x)
     v (due_date x) (created_at x) (updated_at x).
Definition set_due_date v (x : t) : t :=
  mk (id x) (title x) (description x) (completed x) (assignee_id x)
     (priority x) v (created_at x) (updated_at x).
Definition set_updated_at v (x : t) : t :=
  mk (id x) (title x) (description x) (completed x) (assignee_id x)
     (priority x) (due_date x) (created_at x) v.

End Task.

Module TaskCreate.

Record t := mk {
  title : string;
  description : string;
  assignee_id : option Z;
  priority : string;
  due_date : option Z
}.

End TaskCreate.

Module TaskUpdate.

Record t := mk {
  title : option string;
  description : option string;
  assignee_id : option Z;
  completed : option bool;
  priority : option string;
  due_date : option Z
}.

End TaskUpdate.

(** One element of the response of [list_tasks]. *)
Module TaskView.

Record t := mk {
  id : option Z;
  title : string;
  description : string;
  completed : bool;
  assignee_id : option Z;
  assignee_name : string;
  priority : string;
  due_date : option Z;
  created_at : Z;
  updated_at : Z
}.

End TaskView.

(** The table: rows by primary key. *)
Abbreviation Table := (gmap Z Task.t).

(** ** Endpoints as state transformers that may raise

    [M S A] is a computation over a state [S] that returns an [A] or raises
    an [HTTPException].  An endpoint runs over the database ([M Table]); the
    body of a [with Session(...)] block runs over a [Session]. *)

Definition M (S A : Type) : Type := S -> Result A * S.

Definition ret {S A} (a : A) : M S A := fun s => (inr a, s).

Definition raise {S A} (e : HTTPException) : M S A := fun s => (inl e, s).

Definition bind {S A B} (m : M S A) (k : A -> M S B) : M S B :=
  fun s =>
    match m s with
    | (inl e, s') => (inl e, s')
    | (inr a, s') => k a s'
    end.

Notation "'let*' x ':=' e 'in' k" := (bind e (fun x => k))
  (at level 10, x name, e at level 100, k at level 200, only parsing).

(** A helper that may raise, called from an endpoint. *)
Definition lift {S A} (r : Result A) : M S A := fun s => (r, s).

(** ** The session

    A [Session] is a transaction over the table: [committed] is what the
    database holds, [working] is what the session sees, with the objects it
    has modified, added or deleted and not yet committed.  A Python variable
    bound to a persistent object is the primary key of its row in [working]. *)

Record Session := mkSession {
  committed : Table;
  working : Table
}.

(** [session.get(Task, key)]. *)
Definition session_get (key : Z) : M Session (option Task.t) :=
  fun s => (inr (working s !! key), s).

(** [task.attr = v] on the persistent object with primary key [key]. *)
Definition setattr (key : Z) (f : Task.t -> Task.t) : M Session unit :=
  fun s => (inr tt, mkSession (committed s) (alter f key (working s))).

(** The row id the storage gives to the next inserted row. *)
Definition next_rowid (tbl : Table) : Z :=
  map_fold (fun k _ acc => Z.max k acc) 0 tbl + 1.

(** [session.add(task)] for a new object: the row is inserted (with its
    generated id) in the session's view; it reaches the database at commit.
    The result is the generated primary key. *)
Definition session_add_new (task : Task.t) : M Session Z :=
  fun s =>
    let key := next_rowid (working s) in
    (inr key,
     mkSession (committed s)
               (<[key := Task.set_id (Some key) task]> (working s))).

(** [session.add(task)] for an object the session already holds. *)
Definition session_add (key : Z) : M Session unit := ret tt.

(** [session.delete(task)]. *)
Definition session_delete (key : Z) : M Session unit :=
  fun s => (inr tt, mkSession (committed s) (delete key (working s))).

(** [session.commit()]. *)
Definition session_commit : M Session unit :=
  fun s => (inr tt, mkSession (working s) (working s)).

(** [session.refresh(task)]: the attributes of the row as stored. *)
Definition session_refresh (key : Z) : M Session (option Task.t) :=
  fun s => (inr (working s !! key), s).

(** [with Session(db_engine) as session: body]: whatever has not been
    committed when the block is left, normally or by an exception, is lost. *)
Definition with_session {A} (body : M Session A) : M Table A :=
  fun db => let '(r, s) := body (mkSession db db) in (r, committed s).

(** ** Queries *)

(** A [select(Task)] statement: its [where] criteria, in the order they were
    added, and whether the [order_by] of [list_tasks] was applied. *)
Record Select := mkSelect {
  criteria : list (Task.t -> bool);
  ordered : bool
}.

Definition select_Task : Select := mkSelect [] false.

Definition where_ (stmt : Select) (p : Task.t -> bool) : Select :=
  mkSelect (criteria stmt ++ [p]) (ordered stmt).

(** [Task.completed.asc(), Task.created_at.desc()]: [t1] may come before
    [t2]. *)
Definition order_leb (t1 t2 : Task.t) : bool :=
  if Bool.eqb (Task.completed t1) (Task.completed t2)
  then Task.created_at t2 <=? Task.created_at t1
  else negb (Task.completed t1).

Definition task_order (t1 t2 : Task.t) : Prop := order_leb t1 t2 = true.

#[global] Instance task_order_dec t1 t2 : Decision (task_order t1 t2).
Proof. unfold task_order. apply bool_eq_dec. Defined.

Definition order_by (stmt : Select) : Select :=
  mkSelect (criteria stmt) true.

Definition matches (stmt : Select) (t : Task.t) : bool :=
  forallb (fun p => p t) (criteria stmt).

(** The rows of the table; the order is the storage's. *)
Definition table_rows (tbl : Table) : list Task.t :=
  (map_to_list tbl).*2.

(** [session.exec(stmt).all()].  Rows that tie on the ordering keys come in
    an order the engine chooses; here the one of a merge sort. *)
Definition session_exec (stmt : Select) : M Session (list Task.t) :=
  fun s =>
    let found := List.filter (matches stmt) (table_rows (working s)) in
    (inr (if ordered stmt then merge_sort task_order found else found), s).

(** [bool(v)] for an optional string and an optional integer. *)
Definition truthy_str (v : option string) : bool :=
  match v with Some s => PyStr.truthy s | None => false end.

Definition truthy_int (v : option Z) : bool :=
  match v with Some n => negb (n =? 0) | None => false end.

(** [v == lit] for an optional string. *)
Definition is_str (v : option string) (lit : string) : bool :=
  match v with Some s => String.eqb s lit | None => false end.

(** [column == v], [column < v], [column > v] on a nullable column: a NULL
    satisfies no comparison. *)
Definition col_eq (c : option Z) (v : Z) : bool :=
  match c with Some x => x =? v | None => false end.

Definition col_lt (c : option Z) (v : Z) : bool :=
  match c with Some x => x <? v | None => false end.

Definition col_gt (c : option Z) (v : Z) : bool :=
  match c with Some x => v <? x | None => false end.

Definition col_is_not_null (c : option Z) : bool :=
  match c with Some _ => true | None => false end.

(** [{user["id"]: user["name"] for user in TEAM_MEMBERS}]. *)
Definition user_map : gmap Z string :=
  foldl (fun m user => <[member_id user := member_name user]> m)
        ∅ TEAM_MEMBERS.

Definition task_view (t : Task.t) : TaskView.t :=
  TaskView.mk (Task.id t) (Task.title t) (Task.description t)
    (Task.completed t) (Task.assignee_id t)
    (if truthy_int (Task.assignee_id t)
     then default "Unassigned" (Task.assignee_id t ≫= fun k => user_map !! k)
     else "Unassigned")
    (Task.priority t) (Task.due_date t)
    (Task.created_at t) (Task.updated_at t).

(** ** The endpoints *)

Section ListTasks.

(** [column.contains(s)]: the containment match of the storage engine
    (a [LIKE] whose case sensitivity and wild cards are the engine's). *)
Variable contains : string -> string -> bool.

(** The query of [GET /tasks], built inside the session. *)
Definition list_query (today : Z) (search status : option string)
    (assignee_id : option Z) (priority due : option string)
  : M Session (list Task.t) :=
  let sql_statement := select_Task in
  let sql_statement :=
    if truthy_str search
    then where_ sql_statement (fun t =>
           contains (Task.title t) (default "" search)
           || contains (Task.description t) (default "" search))
    else sql_statement in
  let sql_statement :=
    if is_str status "complete"
    then where_ sql_statement (fun t => Bool.eqb (Task.completed t) true)
    else if is_str status "incomplete"
    then where_ sql_statement (fun t => Bool.eqb (Task.completed t) false)
    else sql_statement in
  let sql_statement :=
    match assignee_id with
    | Some a => where_ sql_statement (fun t => col_eq (Task.assignee_id t) a)
    | None => sql_statement
    end in
  let* sql_statement :=
    if truthy_str priority
    then let* pr := lift (validate_priority priority) in
         ret (where_ sql_statement (fun t => String.eqb (Task.priority t) pr))
    else ret sql_statement in
  let sql_statement :=
    if is_str due "overdue"
    then where_ (where_ sql_statement
                   (fun t => col_is_not_null (Task.due_date t)))
                (fun t => col_lt (Task.due_date t) today)
    else if is_str due "today"
    then where_ sql_statement (fun t => col_eq (Task.due_date t) today)
    else if is_str due "upcoming"
    then where_ (where_ sql_statement
                   (fun t => col_is_not_null (Task.due_date t)))
                (fun t => col_gt (Task.due_date t) today)
    else sql_statement in
  let sql_statement := order_by sql_statement in
  session_exec sql_statement.

(** [GET /tasks]; [today] is the value of [date.today()], read once at the
    start of the call. *)
Definition list_tasks (today : Z) (search status : option string)
    (assignee_id : option Z) (priority due : option string)
  : M Table (list TaskView.t) :=
  let* rows :=
    with_session (list_query today search status assignee_id priority due) in
  ret (List.map task_view rows).

End ListTasks.

(** [POST /tasks]; [now_created] and [now_updated] are the two readings of
    [datetime.now(tz=utc)] made by the default factories of [created_at] and
    [updated_at], in that order.  The result is [task.id]. *)
Definition create_task (now_created now_updated : Z) (payload : TaskCreate.t)
  : M Table (option Z) :=
  let title := PyStr.strip (TaskCreate.title payload) in
  if negb (PyStr.truthy title)
  then raise (mkHTTPException 400 "title is required")
  else
  if negb (user_exists (TaskCreate.assignee_id payload))
  then raise (mkHTTPException 400 "assignee_id is invalid")
  else
  let* priority := lift (validate_priority (Some (TaskCreate.priority payload))) in
  with_session (
    let task :=
      Task.mk None title
        (PyStr.strip (if PyStr.truthy (TaskCreate.description payload)
                      then TaskCreate.description payload else ""))
        false
        (TaskCreate.assignee_id payload)
        priority
        (TaskCreate.due_date payload)
        now_created now_updated in
    let* key := session_add_new task in
    let* _ := session_commit in
    let* row := session_refresh key in
    ret (row ≫= Task.id)).

(** The body of the session block of [update_task]. *)
Definition update_body (now : Z) (task_id : Z) (payload : TaskUpdate.t)
  : M Session unit :=
  let* task := session_get task_id in
  match task with
  | None => raise (mkHTTPException 404 "Task not found")
  | Some _ =>
    let* _ :=
      match TaskUpdate.title payload with
      | Some v =>
          let title := PyStr.strip v in
          if negb (PyStr.truthy title)
          then raise (mkHTTPException 400 "title cannot be empty")
          else setattr task_id (Task.set_title title)
      | None => ret tt
      end in
    let* _ :=
      match TaskUpdate.description payload with
      | Some v => setattr task_id (Task.set_description (PyStr.strip v))
      | None => ret tt
      end in
    let* _ :=
      match TaskUpdate.assignee_id payload with
      | Some a =>
          if negb (user_exists (Some a))
          then raise (mkHTTPException 400 "assignee_id is invalid")
          else setattr task_id (Task.set_assignee_id (Some a))
      | None => ret tt
      end in
    let* _ :=
      match TaskUpdate.completed payload with
      | Some c => setattr task_id (Task.set_completed c)
      | None => ret tt
      end in
    let* _ :=
      match TaskUpdate.priority payload with
      | Some p =>
          let* pr := lift (validate_priority (Some p)) in
          setattr task_id (Task.set_priority pr)
      | None => ret tt
      end in
    let* _ :=
      match TaskUpdate.due_date payload with
      | Some d => setattr task_id (Task.set_due_date (Some d))
      | None => ret tt
      end in
    let* _ := setattr task_id (Task.set_updated_at now) in
    let* _ := session_add task_id in
    let* _ := session_commit in
    let* _ := session_refresh task_id in
    ret tt
  end.

(** [PATCH /tasks/{task_id}]; [now] is the reading of the UTC clock.  The
    result [true] is the answer [{"ok": True}]. *)
Definition update_task (now : Z) (task_id : Z) (payload : TaskUpdate.t)
  : M Table bool :=
  let* _ := with_session (update_body now task_id payload) in
  ret true.

(** [DELETE /tasks/{task_id}]. *)
Definition delete_task (task_id : Z) : M Table bool :=
  let* _ :=
    with_session (
      let* task := session_get task_id in
      match task with
      | None => raise (mkHTTPException 404 "Task not found")
      | Some _ =>
          let* _ := session_delete task_id in
          session_commit
      end) in
  ret true.

(** ** The body of a PATCH request

    A key of the JSON body is missing, or holds [null], or holds a value.
    [TaskUpdate] declares every field as [Optional[T] = None]: a missing key
    takes the default [None] and a [null] validates to [None]. *)

Inductive Field (A : Type) : Type :=
| Absent : Field A
| Null : Field A
| Value : A -> Field A.

Arguments Absent {A}.
Arguments Null {A}.
Arguments Value {A} _.

Definition parse_field {A} (f : Field A) : option A :=
  match f with
  | Absent => None
  | Null => None
  | Value a => Some a
  end.

Module PatchBody.

Record t := mk {
  title : Field string;
  description : Field string;
  assignee_id : Field Z;
  completed : Field bool;
  priority : Field string;
  due_date : Field Z
}.

Definition empty : t := mk Absent Absent Absent Absent Absent Absent.

End PatchBody.

Definition parse_TaskUpdate (body : PatchBody.t) : TaskUpdate.t :=
  TaskUpdate.mk
    (parse_field (PatchBody.title body))
    (parse_field (PatchBody.description body))
    (parse_field (PatchBody.assignee_id body))
    (parse_field (PatchBody.completed body))
    (parse_field (PatchBody.priority body))
    (parse_field (PatchBody.due_date body)).

(** [PATCH /tasks/{task_id}] from the request body. *)
Definition patch_task (now : Z) (task_id : Z) (body : PatchBody.t)
  : M Table bool :=
  update_task now task_id (parse_TaskUpdate body).

(** ** Histories of the service

    [reachable clock db]: the table [db] is what the database holds after
    some sequence of calls of [create_task], [update_task] and [delete_task]
    on the empty table, and [clock] bounds every reading of the UTC clock
    made so far.  Successive readings of the clock do not decrease. *)

Inductive reachable : Z -> Table -> Prop :=
| reach_init : forall clock, reachable clock ∅
| reach_create : forall clock db now_created now_updated payload r db',
    reachable clock db ->
    clock <= now_created -> now_created <= now_updated ->
    create_task now_created now_updated payload db = (r, db') ->
    reachable now_updated db'
| reach_update : forall clock db now task_id payload r db',
    reachable clock db ->
    clock <= now ->
    update_task now task_id payload db = (r, db') ->
    reachable now db'
| reach_delete : forall clock db task_id r db',
    reachable clock db ->
    delete_task task_id db = (r, db') ->
    reachable clock db'.

(** What a stored record must satisfy, given a bound [clock] on the clock
    readings made so far. *)
Definition task_ok (clock : Z) (t : Task.t) : Prop :=
  PyStr.truthy (Task.title t) = true
  /\ PyStr.all_space (Task.title t) = false
  /\ (Task.assignee_id t = None \/ user_exists (Task.assignee_id t) = true)
  /\ In (Task.priority t) ALLOWED_PRIORITIES
  /\ Task.created_at t <= Task.updated_at t
  /\ Task.updated_at t <= clock.

(** ** The net effect of [update_task]

    What the checks and the assignments of [update_task] amount to, read off
    its body: the three conditions under which it does not raise, and the
    record it commits then. *)

Definition title_accepted (payload : TaskUpdate.t) : bool :=
  match TaskUpdate.title payload with
  | Some v => PyStr.truthy (PyStr.strip v)
  | None => true
  end.

Definition assignee_accepted (payload : TaskUpdate.t) : bool :=
  match TaskUpdate.assignee_id payload with
  | Some a => user_exists (Some a)
  | None => true
  end.

Definition priority_accepted (payload : TaskUpdate.t) : bool :=
  match TaskUpdate.priority payload with
  | Some p => in_allowed (PyStr.lower p)
  | None => true
  end.

Definition updated (now : Z) (payload : TaskUpdate.t) (t : Task.t) : Task.t :=
  Task.mk (Task.id t)
    (from_option PyStr.strip (Task.title t) (TaskUpdate.title payload))
    (from_option PyStr.strip (Task.description t)
       (TaskUpdate.description payload))
    (default (Task.completed t) (TaskUpdate.completed payload))
    (from_option Some (Task.assignee_id t) (TaskUpdate.assignee_id payload))
    (from_option PyStr.lower (Task.priority t) (TaskUpdate.priority payload))
    (from_option Some (Task.due_date t) (TaskUpdate.due_date payload))
    (Task.created_at t)
    now.

(** ** The net effect of [list_tasks]

    What the filters of [list_tasks] amount to, read off its body: the
    priority the rows are compared with, when there is one, and the
    condition a row meets to be selected. *)

Definition priority_filter (priority : option string)
  : Result (option string) :=
  if truthy_str priority
  then match validate_priority priority with
       | inl e => inl e
       | inr pr => inr (Some pr)
       end
  else inr None.

Definition sel_search (contains : string -> string -> bool)
    (search : option string) (t : Task.t) : bool :=
  if truthy_str search
  then contains (Task.title t) (default "" search)
       || contains (Task.description t) (default "" search)
  else true.

Definition sel_status (status : option string) (t : Task.t) : bool :=
  if is_str status "complete" then Bool.eqb (Task.completed t) true
  else if is_str status "incomplete" then Bool.eqb (Task.completed t) false
  else true.

Definition sel_assignee (assignee_id : option Z) (t : Task.t) : bool :=
  match assignee_id with
  | Some a => col_eq (Task.assignee_id t) a
  | None => true
  end.

Definition sel_priority (pr : option string) (t : Task.t) : bool :=
  match pr with
  | Some p => String.eqb (Task.priority t) p
  | None => true
  end.

Definition sel_due (today : Z) (due : option string) (t : Task.t) : bool :=
  if is_str due "overdue"
  then col_is_not_null (Task.due_date t) && col_lt (Task.due_date t) today
  else if is_str due "today" then col_eq (Task.due_date t) today
  else if is_str due "upcoming"
  then col_is_not_null (Task.due_date t) && col_gt (Task.due_date t) today
  else true.

Definition selects (contains : string -> string -> bool) (today : Z)
    (search status : option string) (assignee_id : option Z)
    (pr due : option string) (t : Task.t) : bool :=
  sel_search contains search t && sel_status status t
  && sel_assignee assignee_id t && sel_priority pr t && sel_due today due t.

(** The three buckets, on an element of the answer. *)
Definition view_overdue (today : Z) (v : TaskView.t) : bool :=
  match TaskView.due_date v with Some d => d <? today | None => false end.

Definition view_due_today (today : Z) (v : TaskView.t) : bool :=
  match TaskView.due_date v with Some d => d =? today | None => false end.

Definition view_upcoming (today : Z) (v : TaskView.t) : bool :=
  match TaskView.due_date v with Some d => today <? d | None => false end.

(** What else a stored record satisfies under its key: it carries the key
    as its id, the key is positive, the assignee is a member of the
    directory, and the title and the description are stripped. *)
Definition row_wf (key : Z) (t : Task.t) : Prop :=
  Task.id t = Some key
  /\ 1 <= key
  /\ user_exists (Task.assignee_id t) = true
  /\ PyStr.strip (Task.title t) = Task.title t
  /\ PyStr.strip (Task.description t) = Task.description t.

(** The request that sends back every field of a record as it is stored. *)
Definition write_back (t : Task.t) : TaskUpdate.t :=
  TaskUpdate.mk (Some (Task.title t)) (Some (Task.description t))
    (Task.assignee_id t) (Some (Task.completed t))
    (Some (Task.priority t)) (Task.due_date t).

(** ** Histories with any clock

    [history readings db]: the table [db] is what the database holds after
    some sequence of successful calls of [create_task], [update_task] and
    [delete_task] on the empty table, and [readings] are the readings of
    the UTC clock those calls made, the latest first.  Nothing is asked of
    the readings. *)

Inductive history : list Z -> Table -> Prop :=
| history_start : history [] ∅
| history_create : forall readings db now_created now_updated payload key db',
    history readings db ->
    create_task now_created now_updated payload db = (inr key, db') ->
    history (now_updated :: now_created :: readings) db'
| history_update : forall readings db now task_id payload r db',
    history readings db ->
    update_task now task_id payload db = (inr r, db') ->
    history (now :: readings) db'
| history_delete : forall readings db task_id r db',
    history readings db ->
    delete_task task_id db = (inr r, db') ->
    history readings db'.

(** No reading of the clock is before the reading made just before it. *)
Definition never_set_back (readings : list Z) : Prop :=
  Sorted (fun later earlier => earlier <= later) readings.

(** [c] is not before the latest reading. *)
Definition latest_at_most (readings : list Z) (c : Z) : Prop :=
  match readings with
  | [] => True
  | r :: _ => r <= c
  end.

(** The invariants of a record that do not involve its timestamps. *)
Definition fields_ok (t : Task.t) : Prop :=
  PyStr.truthy (Task.title t) = true
  /\ PyStr.all_space (Task.title t) = false
  /\ (Task.assignee_id t = None \/ user_exists (Task.assignee_id t) = true)
  /\ In (Task.priority t) ALLOWED_PRIORITIES.

(** ** The remaining endpoints *)

(** [GET /]: the value of the key ["status"] of the answer. *)
Definition read_root : string := "The FastAPI backend is LIVE".

(** [GET /users]. *)
Definition list_users : list Member := TEAM_MEMBERS.

(** ** Sample data *)

(** A containment match that is case sensitive and has no wild card. *)
Definition contains_exact (column pattern : string) : bool :=
  match String.index 0 pattern column with
  | Some _ => true
  | None => false
  end.

Definition task_A : Task.t :=
  Task.mk (Some 1) "Draft budget" "" false (Some 1) "low" (Some 90)
    1000 1000.

Definition task_B : Task.t :=
  Task.mk (Some 2) "Book venue" "" true (Some 2) "high" (Some 100)
    2000 2500.

Definition task_C : Task.t :=
  Task.mk (Some 3) "Send invites" "" false (Some 4) "medium" (Some 110)
    3000 3000.

Definition task_D : Task.t :=
  Task.mk (Some 4) "Tidy up" "" false (Some 3) "low" None 4000 4000.

Definition abc_db : Table :=
  <[3 := task_C]> (<[2 := task_B]> (<[1 := task_A]> ∅)).

Definition abcd_db : Table := <[4 := task_D]> abc_db.

(** A request that renames a task and gives it to a user who is not in the
    directory. *)
Definition rename_and_misassign : TaskUpdate.t :=
  TaskUpdate.mk (Some "Draft the budget") None (Some 9) None None None.

Definition complete_only : TaskUpdate.t :=
  TaskUpdate.mk None None None (Some true) None None.

(** A body whose [assignee_id] and [due_date] hold null. *)
Definition null_body : PatchBody.t :=
  PatchBody.mk Absent Absent Null Absent Absent Null.

(** A body that reopens a task and renames it. *)
Definition reopen_body : PatchBody.t :=
  PatchBody.mk (Value " Book the venue ") Absent Null (Value false)
    (Value "LOW") Absent.

Definition first_request : TaskCreate.t :=
  TaskCreate.mk "  Draft budget " "" (Some 1) "Low" (Some 90).

(** The record [first_request] creates on the empty table, and the table
    that holds it. *)
Definition first_row : Task.t :=
  Task.mk (Some 1) "Draft budget" "" false (Some 1) "low" (Some 90)
    1000 1001.

Definition first_db : Table := <[1 := first_row]> ∅.

(** A request whose title is blank, whose assignee is unknown and whose
    priority is not one. *)
Definition hopeless_update : TaskUpdate.t :=
  TaskUpdate.mk (Some "   ") None (Some 9) None (Some "urgent") None.

(** The record and the table left by an update made with the reading 500
    after [first_request] was stored with the readings 1000 and 1001. *)
Definition set_back_row : Task.t :=
  Task.mk (Some 1) "Draft budget" "" true (Some 1) "low" (Some 90)
    1000 500.

Definition set_back_db : Table := <[1 := set_back_row]> ∅.

(** * Properties *)

(** ** Strings and the priority validator *)

Lemma in_allowed_In (val : string) :
  in_allowed val = true <-> In val ALLOWED_PRIORITIES.
Proof.
  unfold in_allowed. rewrite existsb_exists. split.
  - intros (x & Hx & Heq). apply String.eqb_eq in Heq. now subst.
  - intros H. exists val. split; [assumption | apply String.eqb_refl].
Qed.

Lemma in_allowed_cases (val : string) :
  in_allowed val = true -> val = "low" \/ val = "medium" \/ val = "high".
Proof.
  intros H. apply in_allowed_In in H. simpl in H.
  destruct H as [H | [H | [H | []]]]; auto.
Qed.

Lemma validate_priority_ok (v val : string) :
  validate_priority (Some v) = inr val ->
  val = PyStr.lower v /\ in_allowed val = true.
Proof.
  unfold validate_priority.
  destruct (in_allowed (PyStr.lower v)) eqn:E; simpl; intros H;
    inversion H; subst; auto.
Qed.

Lemma validate_priority_err (value : option string) (e : HTTPException) :
  validate_priority value = inl e ->
  e = mkHTTPException 400 "priority must be one of low|medium|high"
  /\ exists v, value = Some v /\ in_allowed (PyStr.lower v) = false.
Proof.
  destruct value as [v|]; simpl; [| discriminate].
  destruct (in_allowed (PyStr.lower v)) eqn:E; simpl; intros H;
    inversion H; subst. eauto.
Qed.

Lemma rstrip_head (c : ascii) (r : string) :
  PyStr.isspace c = false ->
  exists r', PyStr.rstrip (String c r) = String c r'.
Proof.
  intros Hc. simpl. destruct (PyStr.rstrip r); [rewrite Hc |]; eauto.
Qed.

Lemma lstrip_head (s : string) :
  PyStr.lstrip s = EmptyString
  \/ exists c r, PyStr.lstrip s = String c r /\ PyStr.isspace c = false.
Proof.
  induction s as [|c r IH]; simpl; [now left |].
  destruct (PyStr.isspace c) eqn:E; [exact IH | right; eauto].
Qed.

(** A stripped string that is not empty starts with a character that is not
    white space. *)
Lemma strip_truthy_not_blank (s : string) :
  PyStr.truthy (PyStr.strip s) = true ->
  PyStr.all_space (PyStr.strip s) = false.
Proof.
  unfold PyStr.strip.
  destruct (lstrip_head s) as [E | (c & r & E & Hc)]; rewrite E.
  - simpl. discriminate.
  - destruct (rstrip_head c r Hc) as [r' Hr]. rewrite Hr. simpl.
    now rewrite Hc.
Qed.

(** C7: [validate_priority(None)] is ["medium"]; a string is lower-cased and
    returned when the result is one of low, medium, high, and rejected with
    the 400 error otherwise; so ["HIGH"] gives ["high"] and ["urgent"]
    fails. *)
Theorem validate_priority_spec :
  validate_priority None = inr "medium"
  /\ (forall v : string,
        validate_priority (Some v) =
        if decide (PyStr.lower v ∈ ["low"; "medium"; "high"])
        then inr (PyStr.lower v)
        else inl (mkHTTPException 400
                    "priority must be one of low|medium|high"))
  /\ validate_priority (Some "HIGH") = inr "high"
  /\ is_InvalidInput (validate_priority (Some "urgent")).
Proof.
  split; [reflexivity |]. split; [| split; [reflexivity |]].
  - intros v. unfold validate_priority.
    destruct (in_allowed (PyStr.lower v)) eqn:E; simpl.
    + rewrite decide_True; [reflexivity |].
      apply in_allowed_In in E. now apply list_elem_of_In.
    + rewrite decide_False; [reflexivity |].
      intros H. apply list_elem_of_In, in_allowed_In in H. congruence.
  - eexists. reflexivity.
Qed.

(** ** The session and [update_task] *)

Lemma setattr_loaded (key : Z) (f : Task.t -> Task.t) (c w : Table) (t : Task.t) :
  setattr key f (mkSession c (<[key := t]> w))
  = (inr tt, mkSession c (<[key := f t]> w)).
Proof. unfold setattr. simpl. now rewrite alter_insert_eq. Qed.

Lemma update_body_loaded (now key : Z) (payload : TaskUpdate.t) (c w : Table)
    (t : Task.t) :
  match update_body now key payload (mkSession c (<[key := t]> w)) with
  | (inr _, s') =>
      title_accepted payload && assignee_accepted payload
        && priority_accepted payload = true
      /\ s' = mkSession (<[key := updated now payload t]> w)
                        (<[key := updated now payload t]> w)
  | (inl e, s') =>
      title_accepted payload && assignee_accepted payload
        && priority_accepted payload = false
      /\ status_code e = 400 /\ committed s' = c
  end.
Proof.
  assert (Hlook : (<[key := t]> w) !! key = Some t) by apply lookup_insert_eq.
  unfold update_body, title_accepted, assignee_accepted, priority_accepted.
  unfold bind at 1. unfold session_get at 1. cbn [working]. rewrite Hlook.
  cbv beta iota.
  destruct payload as [ti de asg co pr du]; cbn [TaskUpdate.title
    TaskUpdate.description TaskUpdate.assignee_id TaskUpdate.completed
    TaskUpdate.priority TaskUpdate.due_date].
  unfold bind at 1.
  destruct ti as [v|]; cbn [negb andb];
    [destruct (PyStr.truthy (PyStr.strip v)) eqn:Et; cbn [negb andb];
       [rewrite setattr_loaded | unfold raise; auto]
    | unfold ret at 1]; cbv beta iota.
  all: unfold bind at 1;
    (destruct de as [v'|]; [rewrite setattr_loaded | unfold ret at 1]);
    cbv beta iota.
  all: unfold bind at 1;
    (destruct asg as [a|]; cbn [negb andb];
      [destruct (user_exists (Some a)) eqn:Ea; cbn [negb andb];
         [rewrite setattr_loaded | unfold raise; auto]
      | unfold ret at 1]); cbv beta iota.
  all: unfold bind at 1;
    (destruct co as [b|]; [rewrite setattr_loaded | unfold ret at 1]);
    cbv beta iota.
  all: unfold bind at 1;
    (destruct pr as [p|]; cbn [negb andb];
      [unfold bind at 1, lift at 1, validate_priority;
       destruct (in_allowed (PyStr.lower p)) eqn:Ep; cbn [negb andb];
         [cbv beta iota; rewrite setattr_loaded | auto]
      | unfold ret at 1]); cbv beta iota.
  all: unfold bind at 1;
    (destruct du as [d|]; [rewrite setattr_loaded | unfold ret at 1]);
    cbv beta iota.
  all: unfold bind at 1; rewrite setattr_loaded; cbv beta iota.
  all: unfold bind, session_add, ret, session_commit, session_refresh;
    cbn [working committed fst snd];
    destruct t; split; reflexivity.
Qed.

(** The body of [update_task] on a session that holds the task: either a
    check rejects the request, with the 400 error and nothing committed, or
    the record [updated] is committed. *)
Lemma update_body_run (now key : Z) (payload : TaskUpdate.t) (c w : Table)
    (t : Task.t) :
  w !! key = Some t ->
  match update_body now key payload (mkSession c w) with
  | (inr _, s') =>
      title_accepted payload && assignee_accepted payload
        && priority_accepted payload = true
      /\ s' = mkSession (<[key := updated now payload t]> w)
                        (<[key := updated now payload t]> w)
  | (inl e, s') =>
      title_accepted payload && assignee_accepted payload
        && priority_accepted payload = false
      /\ status_code e = 400 /\ committed s' = c
  end.
Proof.
  intros Hget.
  pose proof (update_body_loaded now key payload c w t) as H.
  now rewrite (insert_id w key t Hget) in H.
Qed.

Lemma update_body_missing (now key : Z) (payload : TaskUpdate.t) (c w : Table) :
  w !! key = None ->
  update_body now key payload (mkSession c w)
  = (inl (mkHTTPException 404 "Task not found"), mkSession c w).
Proof.
  intros Hget. unfold update_body, bind, session_get. cbn [working].
  now rewrite Hget.
Qed.

(** [update_task] by cases. *)
Lemma update_task_run (now key : Z) (payload : TaskUpdate.t) (db : Table) :
  match db !! key with
  | None =>
      update_task now key payload db
      = (inl (mkHTTPException 404 "Task not found"), db)
  | Some t =>
      if title_accepted payload && assignee_accepted payload
         && priority_accepted payload
      then update_task now key payload db
           = (inr true, <[key := updated now payload t]> db)
      else exists d,
           update_task now key payload db = (inl (mkHTTPException 400 d), db)
  end.
Proof.
  unfold update_task, bind, with_session.
  destruct (db !! key) as [t|] eqn:Hget.
  - pose proof (update_body_run now key payload db db t Hget) as H.
    destruct (update_body now key payload (mkSession db db))
      as [[[code d]|[]] s']; cbn [status_code] in H.
    + destruct H as (-> & -> & ->). exists d. reflexivity.
    + destruct H as (-> & ->). reflexivity.
  - now rewrite (update_body_missing now key payload db db Hget).
Qed.

Lemma update_task_ok (now key : Z) (payload : TaskUpdate.t) (db db' : Table)
    (r : bool) :
  update_task now key payload db = (inr r, db') ->
  exists t, db !! key = Some t
    /\ title_accepted payload = true
    /\ assignee_accepted payload = true
    /\ priority_accepted payload = true
    /\ db' = <[key := updated now payload t]> db.
Proof.
  intros Hrun. pose proof (update_task_run now key payload db) as H.
  destruct (db !! key) as [t|]; [| congruence].
  destruct (title_accepted payload && assignee_accepted payload
            && priority_accepted payload) eqn:E.
  - apply andb_prop in E as [E E3]. apply andb_prop in E as [E1 E2].
    exists t. repeat split; try assumption. congruence.
  - destruct H as [d H]. congruence.
Qed.

Lemma update_task_err (now key : Z) (payload : TaskUpdate.t) (db db' : Table)
    (e : HTTPException) :
  update_task now key payload db = (inl e, db') -> db' = db.
Proof.
  intros Hrun. pose proof (update_task_run now key payload db) as H.
  destruct (db !! key) as [t|]; [| congruence].
  destruct (title_accepted payload && assignee_accepted payload
            && priority_accepted payload).
  - congruence.
  - destruct H as [d H]. congruence.
Qed.

(** C2: an update of an existing task in which the title is empty once
    stripped, or the assignee is unknown, or the priority is not recognised,
    raises the 400 error and leaves the table exactly as it was, whatever
    had been assigned in the session before the failing check. *)
Theorem update_task_rejected_persists_nothing
    (now task_id : Z) (payload : TaskUpdate.t) (db : Table) (t : Task.t) :
  db !! task_id = Some t ->
  (exists v, TaskUpdate.title payload = Some v
             /\ PyStr.strip v = EmptyString)
  \/ (exists a, TaskUpdate.assignee_id payload = Some a
                /\ user_exists (Some a) = false)
  \/ (exists p, TaskUpdate.priority payload = Some p
                /\ ~ In (PyStr.lower p) ALLOWED_PRIORITIES) ->
  is_InvalidInput (fst (update_task now task_id payload db))
  /\ snd (update_task now task_id payload db) = db
  /\ snd (update_task now task_id payload db) !! task_id = Some t.
Proof.
  intros Hget Hbad.
  pose proof (update_task_run now task_id payload db) as H.
  rewrite Hget in H.
  assert (E : title_accepted payload && assignee_accepted payload
              && priority_accepted payload = false).
  { unfold title_accepted, assignee_accepted, priority_accepted.
    destruct Hbad as [(v & -> & Hv) | [(a & -> & Ha) | (p & -> & Hp)]].
    - now rewrite Hv.
    - rewrite Ha. apply andb_false_intro1, andb_false_intro2. reflexivity.
    - apply andb_false_intro2.
      destruct (in_allowed (PyStr.lower p)) eqn:Ep; [| reflexivity].
      apply in_allowed_In in Ep. contradiction. }
  rewrite E in H. destruct H as [d H]. rewrite H. cbn [fst snd].
  split; [now exists d | split; [reflexivity | exact Hget]].
Qed.

(** C8: a successful update stores the current reading of the clock in
    [updated_at] and keeps [created_at], whatever the request holds; when
    the request holds nothing but [completed], every other field of the
    record is what it was. *)
Theorem update_task_completed_only
    (now task_id : Z) (payload : TaskUpdate.t) (db db' : Table) (r : bool)
    (t : Task.t) :
  db !! task_id = Some t ->
  update_task now task_id payload db = (inr r, db') ->
  exists t',
    db' !! task_id = Some t'
    /\ Task.updated_at t' = now
    /\ Task.created_at t' = Task.created_at t
    /\ (forall c : bool,
          payload = TaskUpdate.mk None None None (Some c) None None ->
          Task.completed t' = c
          /\ Task.title t' = Task.title t
          /\ Task.description t' = Task.description t
          /\ Task.assignee_id t' = Task.assignee_id t
          /\ Task.priority t' = Task.priority t
          /\ Task.due_date t' = Task.due_date t).
Proof.
  intros Hget Hrun.
  apply update_task_ok in Hrun as (t0 & Hget0 & _ & _ & _ & ->).
  assert (t0 = t) by congruence. subst t0.
  exists (updated now payload t). split; [apply lookup_insert_eq |].
  split; [reflexivity |]. split; [reflexivity |].
  intros c ->. repeat split.
Qed.

(** C3 (as the code has it): a successful PATCH leaves a field of the record
    untouched when its key is missing from the body or holds null, and
    stores the value (normalised as the field requires) when the key holds
    one, falsy values included. *)
Theorem patch_task_fields
    (now task_id : Z) (body : PatchBody.t) (db db' : Table) (r : bool)
    (t : Task.t) :
  db !! task_id = Some t ->
  patch_task now task_id body db = (inr r, db') ->
  exists t',
    db' !! task_id = Some t'
    /\ Task.title t' =
       match PatchBody.title body with
       | Value v => PyStr.strip v | Absent | Null => Task.title t end
    /\ Task.description t' =
       match PatchBody.description body with
       | Value v => PyStr.strip v | Absent | Null => Task.description t end
    /\ Task.assignee_id t' =
       match PatchBody.assignee_id body with
       | Value a => Some a | Absent | Null => Task.assignee_id t end
    /\ Task.completed t' =
       match PatchBody.completed body with
       | Value c => c | Absent | Null => Task.completed t end
    /\ Task.priority t' =
       match PatchBody.priority body with
       | Value p => PyStr.lower p | Absent | Null => Task.priority t end
    /\ Task.due_date t' =
       match PatchBody.due_date body with
       | Value d => Some d | Absent | Null => Task.due_date t end.
Proof.
  intros Hget Hrun. unfold patch_task in Hrun.
  apply update_task_ok in Hrun as (t0 & Hget0 & _ & _ & _ & ->).
  assert (t0 = t) by congruence. subst t0.
  exists (updated now (parse_TaskUpdate body) t).
  split; [apply lookup_insert_eq |].
  destruct body as [ti de asg co pr du]; cbn.
  repeat split;
    [destruct ti | destruct de | destruct asg
    | destruct co | destruct pr | destruct du]; reflexivity.
Qed.

(** ** The query of [list_tasks] *)

Lemma matches_select_Task (t : Task.t) : matches select_Task t = true.
Proof. reflexivity. Qed.

Lemma matches_where (stmt : Select) (p : Task.t -> bool) (t : Task.t) :
  matches (where_ stmt p) t = matches stmt t && p t.
Proof.
  unfold matches, where_. cbn [criteria]. rewrite forallb_app. cbn.
  now rewrite andb_true_r.
Qed.

Lemma matches_order_by (stmt : Select) (t : Task.t) :
  matches (order_by stmt) t = matches stmt t.
Proof. reflexivity. Qed.

(** The ordering of [order_by] is total and transitive. *)
#[global] Instance task_order_total : Total task_order.
Proof.
  intros t1 t2. unfold task_order, order_leb.
  destruct (Task.completed t1), (Task.completed t2); cbn; auto;
    destruct (Z.leb_spec (Task.created_at t2) (Task.created_at t1));
    destruct (Z.leb_spec (Task.created_at t1) (Task.created_at t2));
    auto; lia.
Qed.

#[global] Instance task_order_trans : Transitive task_order.
Proof.
  intros t1 t2 t3. unfold task_order, order_leb.
  destruct (Task.completed t1), (Task.completed t2), (Task.completed t3);
    cbn; try congruence; rewrite !Z.leb_le; lia.
Qed.

(** What [order_by] promises of two rows, the first of which may come
    before the second. *)
Lemma task_order_keys (t1 t2 : Task.t) :
  task_order t1 t2 ->
  (Task.completed t1 = true -> Task.completed t2 = true)
  /\ (Task.completed t1 = Task.completed t2 ->
      Task.created_at t2 <= Task.created_at t1).
Proof.
  unfold task_order, order_leb.
  destruct (Task.completed t1), (Task.completed t2); cbn;
    rewrite ?Z.leb_le; intros H; split; intros; congruence || lia.
Qed.

Lemma StronglySorted_lookup {A} (R : relation A) (l : list A) :
  StronglySorted R l ->
  forall (i j : nat) (x y : A),
    (i < j)%nat -> l !! i = Some x -> l !! j = Some y -> R x y.
Proof.
  induction 1 as [|a l Hl IH Ha]; intros i j x y Hij Hi Hj.
  - discriminate.
  - destruct j as [|j]; [lia |]. destruct i as [|i]; cbn in Hi, Hj.
    + inversion Hi; subst. rewrite Forall_forall in Ha. apply Ha.
      eapply list_elem_of_lookup_2. exact Hj.
    + apply (IH i j); [lia | assumption | assumption].
Qed.

Lemma filter_Permutation_bool {A} (f : A -> bool) (l1 l2 : list A) :
  l1 ≡ₚ l2 -> List.filter f l1 ≡ₚ List.filter f l2.
Proof.
  induction 1 as [| x l1 l2 _ IH | x y l | l1 l2 l3 _ IH1 _ IH2]; cbn.
  - reflexivity.
  - destruct (f x); [now constructor | assumption].
  - destruct (f x), (f y); try reflexivity. apply perm_swap.
  - now transitivity (List.filter f l2).
Qed.

Lemma filter_andb {A} (f g : A -> bool) (l : list A) :
  List.filter (fun x => f x && g x) l = List.filter g (List.filter f l).
Proof.
  induction l as [|a l IH]; cbn; [reflexivity |].
  destruct (f a); cbn; [destruct (g a) |]; now rewrite IH.
Qed.

Lemma is_str_false (v : option string) (lit : string) :
  v <> Some lit -> is_str v lit = false.
Proof.
  destruct v as [x|]; cbn; [| reflexivity]. intros H.
  destruct (String.eqb_spec x lit); [subst; congruence | reflexivity].
Qed.

(** The criteria gathered by [list_query] select the rows [selects] does. *)
Ltac same_selection :=
  unfold ret, session_exec; cbn [ordered order_by working committed];
  do 4 f_equal; apply filter_ext; intros ?t;
  rewrite matches_order_by;
  unfold selects, sel_search, sel_status, sel_assignee, sel_priority, sel_due;
  repeat match goal with
         | |- context [if ?c then _ else _] => destruct c
         | |- context [match ?o with Some _ => _ | None => _ end] =>
             is_var o; destruct o
         end;
  rewrite ?matches_where, matches_select_Task;
  cbn [andb]; rewrite ?andb_true_r, ?andb_assoc; reflexivity.

Section ListTasksFacts.

Variable contains : string -> string -> bool.

(** [list_tasks] by cases: the priority filter is rejected and the call
    raises, or the selected rows are returned in order; the table is never
    changed. *)
Lemma list_tasks_run (today : Z) (search status : option string)
    (assignee_id : option Z) (priority due : option string) (db : Table) :
  list_tasks contains today search status assignee_id priority due db
  = match priority_filter priority with
    | inl e => (inl e, db)
    | inr pr =>
        (inr (List.map task_view
                (merge_sort task_order
                   (List.filter
                      (selects contains today search status assignee_id pr due)
                      (table_rows db)))), db)
    end.
Proof.
  unfold list_tasks, with_session, list_query, priority_filter.
  unfold bind at 1. unfold bind at 1.
  destruct (truthy_str priority) eqn:Etp.
  - unfold bind, lift.
    destruct (validate_priority priority) as [e|pr]; [reflexivity |].
    same_selection.
  - same_selection.
Qed.

Lemma list_tasks_table (today : Z) (search status : option string)
    (assignee_id : option Z) (priority due : option string) (db : Table) :
  snd (list_tasks contains today search status assignee_id priority due db)
  = db.
Proof.
  rewrite list_tasks_run. now destruct (priority_filter priority).
Qed.

Lemma selects_ext (today today' : Z) (search search' status status' : option string)
    (assignee_id assignee_id' : option Z) (pr pr' due due' : option string) :
  (forall t, sel_search contains search t = sel_search contains search' t) ->
  (forall t, sel_status status t = sel_status status' t) ->
  (forall t, sel_assignee assignee_id t = sel_assignee assignee_id' t) ->
  (forall t, sel_priority pr t = sel_priority pr' t) ->
  (forall t, sel_due today due t = sel_due today' due' t) ->
  forall l,
    List.filter (selects contains today search status assignee_id pr due) l
    = List.filter
        (selects contains today' search' status' assignee_id' pr' due') l.
Proof.
  intros H1 H2 H3 H4 H5 l. apply filter_ext. intros t. unfold selects.
  now rewrite H1, H2, H3, H4, H5.
Qed.

(** C10: an empty priority filter is not validated and filters nothing: the
    call returns, and returns what it does without a priority filter. *)
Theorem list_tasks_empty_priority (today : Z) (search status : option string)
    (assignee_id : option Z) (due : option string) (db : Table) :
  list_tasks contains today search status assignee_id (Some "") due db
  = list_tasks contains today search status assignee_id None due db
  /\ exists rows,
       list_tasks contains today search status assignee_id (Some "") due db
       = (inr rows, db).
Proof.
  rewrite !list_tasks_run. cbn [priority_filter truthy_str PyStr.truthy].
  split; [reflexivity | eauto].
Qed.

(** C5 (as the code has it): [list_tasks] raises exactly when the priority
    filter is a non-empty string that is not a priority once lower-cased,
    and then with the 400 error of the validator; a status other than
    complete and incomplete, and a due other than overdue, today and
    upcoming, change nothing to the call made without them. *)
Theorem list_tasks_failure_policy (today : Z) (search status : option string)
    (assignee_id : option Z) (priority due : option string) (db : Table) :
  (forall e : HTTPException,
     fst (list_tasks contains today search status assignee_id priority due db)
     = inl e
     <-> e = mkHTTPException 400 "priority must be one of low|medium|high"
         /\ exists p, priority = Some p /\ p <> EmptyString
                      /\ ~ In (PyStr.lower p) ALLOWED_PRIORITIES)
  /\ (status <> Some "complete" -> status <> Some "incomplete" ->
      list_tasks contains today search status assignee_id priority due db
      = list_tasks contains today search None assignee_id priority due db)
  /\ (due <> Some "overdue" -> due <> Some "today" ->
      due <> Some "upcoming" ->
      list_tasks contains today search status assignee_id priority due db
      = list_tasks contains today search status assignee_id priority None db).
Proof.
  split; [| split].
  - intros e. rewrite list_tasks_run. unfold priority_filter.
    destruct priority as [p|]; cbn [truthy_str].
    + destruct p as [|c p]; cbn [PyStr.truthy].
      * cbn [fst]. split; [discriminate |].
        intros (_ & p & Hp & Hne & _). congruence.
      * destruct (validate_priority (Some (String c p))) as [e'|pr] eqn:Ev;
          cbn [fst].
        -- apply validate_priority_err in Ev as (-> & v & Hv & Hbad).
           inversion Hv; subst v. split.
           ++ intros H. inversion H; subst e. split; [reflexivity |].
              exists (String c p). repeat split; [discriminate |].
              intros Hin. apply in_allowed_In in Hin. congruence.
           ++ intros (-> & _). reflexivity.
        -- apply validate_priority_ok in Ev as (-> & Hok).
           split; [discriminate |].
           intros (_ & p' & Hp' & _ & Hbad). inversion Hp'; subst p'.
           apply in_allowed_In in Hok. contradiction.
    + cbn [fst]. split; [discriminate |].
      intros (_ & p & Hp & _). discriminate.
  - intros Hc Hi. rewrite !list_tasks_run.
    destruct (priority_filter priority) as [e|pr]; [reflexivity |].
    do 4 f_equal. apply selects_ext; try reflexivity.
    intros t. unfold sel_status.
    rewrite (is_str_false status "complete" Hc).
    now rewrite (is_str_false status "incomplete" Hi).
  - intros Ho Ht Hu. rewrite !list_tasks_run.
    destruct (priority_filter priority) as [e|pr]; [reflexivity |].
    do 4 f_equal. apply selects_ext; try reflexivity.
    intros t. unfold sel_due.
    rewrite (is_str_false due "overdue" Ho), (is_str_false due "today" Ht).
    now rewrite (is_str_false due "upcoming" Hu).
Qed.

End ListTasksFacts.

(** ** Due-date buckets and the order of the answer *)

Section ListTasksOrder.

Variable contains : string -> string -> bool.

Lemma due_bucket_rows (today : Z) (search status : option string)
    (assignee_id : option Z) (pr due : option string)
    (bucket : TaskView.t -> bool) (rows : list Task.t) :
  (forall t, sel_due today due t = bucket (task_view t)) ->
  List.map task_view
    (merge_sort task_order
       (List.filter
          (selects contains today search status assignee_id pr due) rows))
  ≡ₚ List.filter bucket
       (List.map task_view
          (merge_sort task_order
             (List.filter
                (selects contains today search status assignee_id pr None)
                rows))).
Proof.
  intros Hb. rewrite filter_map_swap. apply Permutation_map.
  rewrite merge_sort_Permutation.
  rewrite (filter_Permutation_bool _ _ _ (merge_sort_Permutation _ _)).
  rewrite <- filter_andb.
  erewrite filter_ext; [reflexivity |].
  intros t. unfold selects. rewrite Hb. cbn [sel_due is_str].
  now rewrite andb_true_r.
Qed.

(** C6: with one value [today] for the whole call, the answer for
    due=overdue is, up to the order of ties, the answer without a due
    filter restricted to the tasks whose due date exists and is before
    [today]; for due=today, to those whose due date is [today]; for
    due=upcoming, to those whose due date exists and is after [today].  A
    task without a due date is in none of the three. *)
Theorem list_tasks_due_buckets (today : Z) (search status : option string)
    (assignee_id : option Z) (priority : option string) (db : Table)
    (all : list TaskView.t) :
  fst (list_tasks contains today search status assignee_id priority None db)
  = inr all ->
  (exists rows,
     fst (list_tasks contains today search status assignee_id priority
            (Some "overdue") db) = inr rows
     /\ rows ≡ₚ List.filter (view_overdue today) all)
  /\ (exists rows,
        fst (list_tasks contains today search status assignee_id priority
               (Some "today") db) = inr rows
        /\ rows ≡ₚ List.filter (view_due_today today) all)
  /\ (exists rows,
        fst (list_tasks contains today search status assignee_id priority
               (Some "upcoming") db) = inr rows
        /\ rows ≡ₚ List.filter (view_upcoming today) all)
  /\ (forall v, TaskView.due_date v = None ->
        view_overdue today v = false /\ view_due_today today v = false
        /\ view_upcoming today v = false).
Proof.
  rewrite !list_tasks_run.
  destruct (priority_filter priority) as [e|pr]; cbn [fst]; [discriminate |].
  intros Hall. inversion Hall; subst all; clear Hall.
  split; [| split; [| split]].
  - eexists. split; [reflexivity |]. apply due_bucket_rows.
    intros t. unfold view_overdue. cbn.
    destruct (Task.due_date t); reflexivity.
  - eexists. split; [reflexivity |]. apply due_bucket_rows.
    intros t. unfold view_due_today. cbn.
    destruct (Task.due_date t); reflexivity.
  - eexists. split; [reflexivity |]. apply due_bucket_rows.
    intros t. unfold view_upcoming. cbn.
    destruct (Task.due_date t); reflexivity.
  - intros v Hv. unfold view_overdue, view_due_today, view_upcoming.
    now rewrite Hv.
Qed.

Lemma table_rows_three (kA kB kC : Z) (A B C : Task.t) :
  kA <> kB -> kA <> kC -> kB <> kC ->
  table_rows (<[kC := C]> (<[kB := B]> (<[kA := A]> ∅))) ≡ₚ [C; B; A].
Proof.
  intros HAB HAC HBC. unfold table_rows.
  rewrite map_to_list_insert
    by (rewrite lookup_insert_ne, lookup_insert_ne by congruence;
        apply lookup_empty).
  rewrite map_to_list_insert
    by (rewrite lookup_insert_ne by congruence; apply lookup_empty).
  rewrite map_to_list_insert by apply lookup_empty.
  now rewrite map_to_list_empty.
Qed.

(** C4: every answer of [list_tasks] holds the views of the stored rows
    that pass the filters given, each once, and no other; of two tasks of
    the answer the earlier one is completed only if the later one is, and
    when both are in the same group the earlier one was not created before
    the later one.  With A open and created first, B completed and created
    second, C open and created third as the only rows, the unfiltered
    answer is C, A, B. *)
Theorem list_tasks_ordering (today : Z) (search status : option string)
    (assignee_id : option Z) (priority due : option string) (db : Table)
    (rows : list TaskView.t) :
  fst (list_tasks contains today search status assignee_id priority due db)
  = inr rows ->
  (exists pr,
     priority_filter priority = inr pr
     /\ rows ≡ₚ List.map task_view
                  (List.filter
                     (selects contains today search status assignee_id pr due)
                     (table_rows db)))
  /\ (forall (i j : nat) (v1 v2 : TaskView.t),
     (i < j)%nat -> rows !! i = Some v1 -> rows !! j = Some v2 ->
     (TaskView.completed v1 = true -> TaskView.completed v2 = true)
     /\ (TaskView.completed v1 = TaskView.completed v2 ->
         TaskView.created_at v2 <= TaskView.created_at v1))
  /\ (forall (kA kB kC : Z) (A B C : Task.t),
        kA <> kB -> kA <> kC -> kB <> kC ->
        Task.completed A = false -> Task.completed B = true ->
        Task.completed C = false ->
        Task.created_at A < Task.created_at B ->
        Task.created_at B < Task.created_at C ->
        fst (list_tasks contains today None None None None None
               (<[kC := C]> (<[kB := B]> (<[kA := A]> ∅))))
        = inr [task_view C; task_view A; task_view B]).
Proof.
  intros Hrun. split; [| split].
  - rewrite list_tasks_run in Hrun.
    destruct (priority_filter priority) as [e|pr]; cbn [fst] in Hrun;
      [discriminate |].
    inversion Hrun; subst rows; clear Hrun.
    exists pr. split; [reflexivity |].
    apply Permutation_map, merge_sort_Permutation.
  - rewrite list_tasks_run in Hrun.
    destruct (priority_filter priority) as [e|pr]; cbn [fst] in Hrun;
      [discriminate |].
    inversion Hrun; subst rows; clear Hrun.
    intros i j v1 v2 Hij H1 H2.
    change (List.map task_view ?l) with (task_view <$> l) in H1, H2.
    apply list_lookup_fmap_Some in H1 as (t1 & -> & H1).
    apply list_lookup_fmap_Some in H2 as (t2 & -> & H2).
    cbn [task_view TaskView.completed TaskView.created_at].
    apply task_order_keys.
    eapply StronglySorted_lookup; [| exact Hij | exact H1 | exact H2].
    apply StronglySorted_merge_sort; typeclasses eauto.
  - intros kA kB kC A B C HAB HAC HBC HcA HcB HcC Hab Hbc.
    rewrite list_tasks_run. cbn [priority_filter truthy_str fst].
    do 2 f_equal.
    change [task_view C; task_view A; task_view B]
      with (List.map task_view [C; A; B]). f_equal.
    erewrite filter_ext; [rewrite filter_true | reflexivity].
    assert (Hperm : merge_sort task_order
                      (table_rows (<[kC:=C]> (<[kB:=B]> (<[kA:=A]> ∅))))
                    ≡ₚ [C; A; B]).
    { rewrite merge_sort_Permutation, table_rows_three by assumption.
      apply perm_skip, perm_swap. }
    apply (StronglySorted_unique_strong task_order); [| | | exact Hperm].
    + intros x1 x2 Hx1 Hx2 H12 H21. rewrite Hperm in Hx1.
      unfold task_order, order_leb in H12, H21.
      rewrite !elem_of_cons, elem_of_nil in Hx1, Hx2.
      destruct Hx1 as [-> | [-> | [-> | []]]];
        destruct Hx2 as [-> | [-> | [-> | []]]];
        try reflexivity;
        rewrite ?HcA, ?HcB, ?HcC in H12, H21; cbn in H12, H21;
        rewrite ?Z.leb_le in H12, H21; try discriminate; lia.
    + apply StronglySorted_merge_sort; typeclasses eauto.
    + unfold task_order, order_leb.
      repeat constructor; rewrite ?HcA, ?HcB, ?HcC; cbn;
        rewrite ?Z.leb_le; try reflexivity; lia.
Qed.

End ListTasksOrder.

(** ** [create_task], [delete_task] and the histories *)

(** [create_task] by cases. *)
Lemma create_task_run (now_created now_updated : Z) (payload : TaskCreate.t)
    (db : Table) :
  create_task now_created now_updated payload db
  = if negb (PyStr.truthy (PyStr.strip (TaskCreate.title payload)))
    then (inl (mkHTTPException 400 "title is required"), db)
    else if negb (user_exists (TaskCreate.assignee_id payload))
    then (inl (mkHTTPException 400 "assignee_id is invalid"), db)
    else match validate_priority (Some (TaskCreate.priority payload)) with
         | inl e => (inl e, db)
         | inr pr =>
             (inr (Some (next_rowid db)),
              <[next_rowid db :=
                  Task.mk (Some (next_rowid db))
                    (PyStr.strip (TaskCreate.title payload))
                    (PyStr.strip
                       (if PyStr.truthy (TaskCreate.description payload)
                        then TaskCreate.description payload else ""))
                    false (TaskCreate.assignee_id payload) pr
                    (TaskCreate.due_date payload)
                    now_created now_updated]> db)
         end.
Proof.
  unfold create_task.
  destruct (negb (PyStr.truthy (PyStr.strip (TaskCreate.title payload))));
    [reflexivity |].
  destruct (negb (user_exists (TaskCreate.assignee_id payload)));
    [reflexivity |].
  unfold bind at 1, lift.
  destruct (validate_priority (Some (TaskCreate.priority payload)))
    as [e|pr]; [reflexivity |].
  unfold with_session, bind, session_add_new, session_commit,
    session_refresh, ret. cbn [working committed].
  rewrite lookup_insert_eq. reflexivity.
Qed.

(** A request without an assignee is never accepted. *)
Lemma create_task_no_assignee (now_created now_updated : Z)
    (payload : TaskCreate.t) (db : Table) :
  TaskCreate.assignee_id payload = None ->
  exists d,
    create_task now_created now_updated payload db
    = (inl (mkHTTPException 400 d), db).
Proof.
  intros Hnone. rewrite create_task_run, Hnone. cbn [user_exists negb].
  destruct (negb _); eauto.
Qed.

(** [delete_task] by cases. *)
Lemma delete_task_run (key : Z) (db : Table) :
  delete_task key db
  = match db !! key with
    | Some _ => (inr true, delete key db)
    | None => (inl (mkHTTPException 404 "Task not found"), db)
    end.
Proof.
  unfold delete_task, with_session, bind, session_get, session_delete,
    session_commit, raise, ret. cbn [working committed].
  now destruct (db !! key).
Qed.

(** C1 (the code departs from it): a request with the title "Write report",
    the priority "medium" and no assignee is rejected with the 400 error
    "assignee_id is invalid", and nothing is stored. *)
Theorem create_task_without_assignee_rejected :
  create_task 1000 1001
    (TaskCreate.mk "Write report" "" None "medium" None) ∅
  = (inl (mkHTTPException 400 "assignee_id is invalid"), ∅).
Proof. reflexivity. Qed.

Lemma task_ok_later (clock clock' : Z) (t : Task.t) :
  clock <= clock' -> task_ok clock t -> task_ok clock' t.
Proof.
  unfold task_ok. intros Hle (H1 & H2 & H3 & H4 & H5 & H6).
  repeat split; try assumption. lia.
Qed.

Lemma created_task_ok (now_created now_updated : Z) (key : option Z)
    (title description pr : string) (assignee due : option Z) :
  PyStr.truthy (PyStr.strip title) = true ->
  user_exists assignee = true ->
  in_allowed pr = true ->
  now_created <= now_updated ->
  task_ok now_updated
    (Task.mk key (PyStr.strip title) description false assignee pr due
       now_created now_updated).
Proof.
  intros Ht Ha Hp Hle. unfold task_ok. cbn.
  repeat split; auto using strip_truthy_not_blank.
  - now apply in_allowed_In.
  - lia.
Qed.

Lemma updated_task_ok (clock now : Z) (payload : TaskUpdate.t) (t : Task.t) :
  title_accepted payload = true ->
  assignee_accepted payload = true ->
  priority_accepted payload = true ->
  clock <= now ->
  task_ok clock t ->
  task_ok now (updated now payload t).
Proof.
  unfold title_accepted, assignee_accepted, priority_accepted, task_ok.
  intros Ht Ha Hp Hle (H1 & H2 & H3 & H4 & H5 & H6).
  destruct payload as [ti de asg co pr du]; cbn in *.
  repeat split.
  - destruct ti; cbn; assumption.
  - destruct ti; cbn; auto using strip_truthy_not_blank.
  - destruct asg; cbn; auto.
  - destruct pr; cbn; [now apply in_allowed_In | assumption].
  - lia.
  - lia.
Qed.

(** Every record of a reachable table is well formed, and was last written
    no later than the last reading of the clock. *)
Lemma reachable_task_ok (clock : Z) (db : Table) :
  reachable clock db -> map_Forall (fun _ t => task_ok clock t) db.
Proof.
  induction 1 as
    [ clock
    | clock db n1 n2 payload r db' _ IH Hc Hn Hrun
    | clock db now key payload r db' _ IH Hc Hrun
    | clock db key r db' _ IH Hrun ].
  - apply map_Forall_empty.
  - assert (IH' : map_Forall (fun _ t => task_ok n2 t) db).
    { intros k t Hk. apply (task_ok_later clock); [lia | exact (IH k t Hk)]. }
    rewrite create_task_run in Hrun.
    destruct (PyStr.truthy (PyStr.strip (TaskCreate.title payload))) eqn:Et;
      cbn [negb] in Hrun; [| inversion Hrun; subst; exact IH'].
    destruct (user_exists (TaskCreate.assignee_id payload)) eqn:Ea;
      cbn [negb] in Hrun; [| inversion Hrun; subst; exact IH'].
    destruct (validate_priority (Some (TaskCreate.priority payload)))
      as [e|pr] eqn:Ev; inversion Hrun; subst; [exact IH' |].
    apply validate_priority_ok in Ev as (_ & Hp).
    apply map_Forall_insert_2; [| exact IH'].
    now apply created_task_ok.
  - assert (IH' : map_Forall (fun _ t => task_ok now t) db).
    { intros k t Hk. apply (task_ok_later clock); [lia | exact (IH k t Hk)]. }
    destruct r as [e|b].
    + apply update_task_err in Hrun. now subst.
    + apply update_task_ok in Hrun as (t & Hget & Ht & Ha & Hp & ->).
      apply map_Forall_insert_2; [| exact IH'].
      apply (updated_task_ok clock); auto. exact (IH key t Hget).
  - rewrite delete_task_run in Hrun.
    destruct (db !! key); inversion Hrun; subst; [| exact IH].
    now apply map_Forall_delete.
Qed.

Lemma created_fields_ok (now_created now_updated : Z) (key : option Z)
    (title description pr : string) (assignee due : option Z) :
  PyStr.truthy (PyStr.strip title) = true ->
  user_exists assignee = true ->
  in_allowed pr = true ->
  fields_ok
    (Task.mk key (PyStr.strip title) description false assignee pr due
       now_created now_updated).
Proof.
  intros Ht Ha Hp. unfold fields_ok.
  cbn [Task.title Task.assignee_id Task.priority].
  repeat split; auto using strip_truthy_not_blank.
  now apply in_allowed_In.
Qed.

Lemma updated_fields_ok (now : Z) (payload : TaskUpdate.t) (t : Task.t) :
  title_accepted payload = true ->
  assignee_accepted payload = true ->
  priority_accepted payload = true ->
  fields_ok t ->
  fields_ok (updated now payload t).
Proof.
  unfold title_accepted, assignee_accepted, priority_accepted, fields_ok,
    updated.
  intros Ht Ha Hp (H1 & H2 & H3 & H4).
  destruct payload as [ti de asg co pr du].
  cbn [Task.title Task.assignee_id Task.priority TaskUpdate.title
       TaskUpdate.assignee_id TaskUpdate.priority] in *.
  repeat split.
  - destruct ti; cbn [from_option]; assumption.
  - destruct ti; cbn [from_option]; auto using strip_truthy_not_blank.
  - destruct asg; cbn [from_option]; auto.
  - destruct pr; cbn [from_option]; [now apply in_allowed_In | assumption].
Qed.

(** Whatever the clock does, every record of a table a history leads to
    has a title, an assignee and a priority that are well formed. *)
Lemma history_fields_ok (readings : list Z) (db : Table) :
  history readings db -> map_Forall (fun _ t => fields_ok t) db.
Proof.
  induction 1 as
    [ | readings db n1 n2 payload key db' _ IH Hrun
      | readings db now task_id payload r db' _ IH Hrun
      | readings db task_id r db' _ IH Hrun ].
  - apply map_Forall_empty.
  - rewrite create_task_run in Hrun.
    destruct (PyStr.truthy (PyStr.strip (TaskCreate.title payload))) eqn:Et;
      cbn [negb] in Hrun; [| discriminate].
    destruct (user_exists (TaskCreate.assignee_id payload)) eqn:Ea;
      cbn [negb] in Hrun; [| discriminate].
    destruct (validate_priority (Some (TaskCreate.priority payload)))
      as [e|pr] eqn:Ev; inversion Hrun; subst.
    apply validate_priority_ok in Ev as (_ & Hp).
    apply map_Forall_insert_2; [| exact IH].
    now apply created_fields_ok.
  - apply update_task_ok in Hrun as (t & Hget & Ht & Ha & Hp & ->).
    apply map_Forall_insert_2; [| exact IH].
    apply updated_fields_ok; auto. exact (IH task_id t Hget).
  - rewrite delete_task_run in Hrun.
    destruct (db !! task_id); inversion Hrun; subst.
    now apply map_Forall_delete.
Qed.

(** When the clock is never set back, every record of a table a history
    leads to was created no later than it was last written, and last
    written no later than any time from the latest reading on. *)
Lemma history_task_ok (readings : list Z) (db : Table) :
  history readings db ->
  never_set_back readings ->
  forall c, latest_at_most readings c ->
    map_Forall (fun _ t => task_ok c t) db.
Proof.
  unfold never_set_back.
  induction 1 as
    [ | readings db n1 n2 payload key db' _ IH Hrun
      | readings db now task_id payload r db' _ IH Hrun
      | readings db task_id r db' _ IH Hrun ];
    intros Hsorted c Hc.
  - apply map_Forall_empty.
  - apply Sorted_inv in Hsorted as (Hsorted & Hn).
    apply HdRel_inv in Hn. cbn [latest_at_most] in Hc.
    assert (Hold : map_Forall (fun _ t => task_ok n1 t) db).
    { apply IH.
      - now apply Sorted_inv in Hsorted.
      - apply Sorted_inv in Hsorted as (_ & Hhd).
        destruct readings as [|r rs]; cbn; [exact I |].
        now apply HdRel_inv in Hhd. }
    assert (Hold' : map_Forall (fun _ t => task_ok c t) db).
    { intros k t Hk. apply (task_ok_later n1); [lia | exact (Hold k t Hk)]. }
    rewrite create_task_run in Hrun.
    destruct (PyStr.truthy (PyStr.strip (TaskCreate.title payload))) eqn:Et;
      cbn [negb] in Hrun; [| discriminate].
    destruct (user_exists (TaskCreate.assignee_id payload)) eqn:Ea;
      cbn [negb] in Hrun; [| discriminate].
    destruct (validate_priority (Some (TaskCreate.priority payload)))
      as [e|pr] eqn:Ev; inversion Hrun; subst.
    apply validate_priority_ok in Ev as (_ & Hp).
    apply map_Forall_insert_2; [| exact Hold'].
    apply (task_ok_later n2); [exact Hc |]. now apply created_task_ok.
  - apply Sorted_inv in Hsorted as (Hsorted & Hhd).
    cbn [latest_at_most] in Hc.
    assert (Hold : map_Forall (fun _ t => task_ok now t) db).
    { apply IH; [exact Hsorted |].
      destruct readings as [|r0 rs]; cbn; [exact I |].
      now apply HdRel_inv in Hhd. }
    apply update_task_ok in Hrun as (t & Hget & Ht & Ha & Hp & ->).
    apply map_Forall_insert_2.
    + apply (task_ok_later now); [exact Hc |].
      apply (updated_task_ok now); auto; [lia | exact (Hold task_id t Hget)].
    + intros k t' Hk. apply (task_ok_later now); [exact Hc |].
      exact (Hold k t' Hk).
  - rewrite delete_task_run in Hrun.
    destruct (db !! task_id); inversion Hrun; subst.
    apply map_Forall_delete. now apply IH.
Qed.

(** C9 (as the code has it): every record of a table reached by successful
    calls of [create_task], [update_task] and [delete_task] from the empty
    table has a title that is neither empty nor blank, an assignee that is
    null or in the directory and a priority among low, medium, high,
    whatever the clock does; its [updated_at] is not before its
    [created_at] provided no reading of the clock made by those calls is
    before the reading made just before it. *)
Theorem history_task_invariants (readings : list Z) (db : Table) (key : Z)
    (t : Task.t) :
  history readings db ->
  db !! key = Some t ->
  (PyStr.truthy (Task.title t) = true
   /\ PyStr.all_space (Task.title t) = false)
  /\ (Task.assignee_id t = None \/ user_exists (Task.assignee_id t) = true)
  /\ In (Task.priority t) ["low"; "medium"; "high"]
  /\ (never_set_back readings ->
      Task.created_at t <= Task.updated_at t).
Proof.
  intros Hhist Hget.
  destruct (history_fields_ok readings db Hhist key t Hget)
    as (H1 & H2 & H3 & H4).
  repeat split; try assumption.
  intros Hmono.
  assert (Hc : latest_at_most readings (hd 0 readings))
    by (destruct readings; cbn; [exact I | lia]).
  destruct (history_task_ok readings db Hhist Hmono _ Hc key t Hget)
    as (_ & _ & _ & _ & H5 & _).
  exact H5.
Qed.

(** ** The properties on the sample data *)

(** The rejected request had renamed the task in the session before the
    assignee was checked; the database still holds the old title. *)
Example update_body_rejected_after_assignment :
  exists e w,
    update_body 5000 1 rename_and_misassign (mkSession abc_db abc_db)
    = (inl e, mkSession abc_db w)
    /\ Task.title <$> (w !! 1) = Some "Draft the budget"
    /\ Task.title <$> (abc_db !! 1) = Some "Draft budget".
Proof. eexists _, _. split; [| split]; vm_compute; reflexivity. Qed.

Lemma update_task_rejected_witness :
  is_InvalidInput (fst (update_task 5000 1 rename_and_misassign abc_db))
  /\ snd (update_task 5000 1 rename_and_misassign abc_db) = abc_db
  /\ snd (update_task 5000 1 rename_and_misassign abc_db) !! 1 = Some task_A.
Proof.
  apply (update_task_rejected_persists_nothing
           5000 1 rename_and_misassign abc_db task_A).
  - reflexivity.
  - right. left. exists 9. split; reflexivity.
Defined.

Lemma update_task_completed_only_witness :
  exists t',
    <[1 := Task.set_updated_at 5000 (Task.set_completed true task_A)]> abc_db
      !! 1 = Some t'
    /\ Task.updated_at t' = 5000
    /\ Task.created_at t' = Task.created_at task_A
    /\ (forall c : bool,
          complete_only = TaskUpdate.mk None None None (Some c) None None ->
          Task.completed t' = c
          /\ Task.title t' = Task.title task_A
          /\ Task.description t' = Task.description task_A
          /\ Task.assignee_id t' = Task.assignee_id task_A
          /\ Task.priority t' = Task.priority task_A
          /\ Task.due_date t' = Task.due_date task_A).
Proof.
  apply (update_task_completed_only 5000 1 complete_only abc_db _ true task_A).
  - reflexivity.
  - vm_compute. reflexivity.
Defined.

(** C3 (the claim as written fails): a body whose [assignee_id] and
    [due_date] hold null does what the empty body does, and the record keeps
    its assignee and its due date. *)
Lemma patch_null_is_untouched :
  patch_task 5000 1 null_body abc_db
  = patch_task 5000 1 PatchBody.empty abc_db
  /\ exists t',
       snd (patch_task 5000 1 null_body abc_db) !! 1 = Some t'
       /\ Task.assignee_id t' = Some 1
       /\ Task.due_date t' = Some 90.
Proof.
  split; [reflexivity |]. eexists. split; [vm_compute; reflexivity |].
  split; reflexivity.
Qed.

Lemma patch_task_fields_witness :
  exists t',
    snd (patch_task 5000 2 reopen_body abc_db) !! 2 = Some t'
    /\ Task.title t' = "Book the venue"
    /\ Task.description t' = Task.description task_B
    /\ Task.assignee_id t' = Task.assignee_id task_B
    /\ Task.completed t' = false
    /\ Task.priority t' = "low"
    /\ Task.due_date t' = Task.due_date task_B.
Proof.
  apply (patch_task_fields 5000 2 reopen_body abc_db
           (snd (patch_task 5000 2 reopen_body abc_db)) true task_B).
  - reflexivity.
  - vm_compute. reflexivity.
Defined.

Lemma list_tasks_ordering_witness :
  fst (list_tasks contains_exact 100 (Some "e") (Some "incomplete") None
         (Some "LOW") None abcd_db)
  = inr [task_view task_A]
  /\ (exists pr,
        priority_filter (Some "LOW") = inr pr
        /\ [task_view task_A]
           ≡ₚ List.map task_view
                (List.filter
                   (selects contains_exact 100 (Some "e")
                      (Some "incomplete") None pr None)
                   (table_rows abcd_db)))
  /\ fst (list_tasks contains_exact 100 None None None None None abc_db)
     = inr [task_view task_C; task_view task_A; task_view task_B]
  /\ forall (i j : nat) (v1 v2 : TaskView.t),
       (i < j)%nat ->
       [task_view task_C; task_view task_A; task_view task_B] !! i = Some v1 ->
       [task_view task_C; task_view task_A; task_view task_B] !! j = Some v2 ->
       (TaskView.completed v1 = true -> TaskView.completed v2 = true)
       /\ (TaskView.completed v1 = TaskView.completed v2 ->
           TaskView.created_at v2 <= TaskView.created_at v1).
Proof.
  assert (Hsome :
    fst (list_tasks contains_exact 100 (Some "e") (Some "incomplete") None
           (Some "LOW") None abcd_db)
    = inr [task_view task_A])
    by (vm_compute; reflexivity).
  assert (Hrun :
    fst (list_tasks contains_exact 100 None None None None None abc_db)
    = inr [task_view task_C; task_view task_A; task_view task_B])
    by (vm_compute; reflexivity).
  split; [exact Hsome |].
  split;
    [exact (proj1 (list_tasks_ordering contains_exact 100 (Some "e")
                     (Some "incomplete") None (Some "LOW") None abcd_db _
                     Hsome)) |].
  split; [exact Hrun |].
  exact (proj1 (proj2 (list_tasks_ordering contains_exact 100 None None None
                         None None abc_db _ Hrun))).
Defined.

(** C5 (the claim as written fails): the empty string is a priority filter
    that is not a priority, and the call does not raise. *)
Lemma list_tasks_empty_priority_not_rejected :
  ~ (is_InvalidInput
       (fst (list_tasks contains_exact 100 None None None (Some "") None
               abc_db))
     <-> exists p, Some "" = Some p
                   /\ ~ In (PyStr.lower p) ALLOWED_PRIORITIES).
Proof.
  intros [_ H].
  assert (Hbad : exists p, Some "" = Some p
                           /\ ~ In (PyStr.lower p) ALLOWED_PRIORITIES).
  { exists "". split; [reflexivity |]. cbn.
    intros [H1 | [H1 | [H1 | []]]]; discriminate. }
  destruct (H Hbad) as [d Hd]. vm_compute in Hd. discriminate.
Qed.

Lemma list_tasks_due_buckets_witness :
  (exists rows,
     fst (list_tasks contains_exact 100 None None None None
            (Some "overdue") abcd_db) = inr rows
     /\ rows ≡ₚ [task_view task_A])
  /\ (exists rows,
        fst (list_tasks contains_exact 100 None None None None
               (Some "today") abcd_db) = inr rows
        /\ rows ≡ₚ [task_view task_B])
  /\ (exists rows,
        fst (list_tasks contains_exact 100 None None None None
               (Some "upcoming") abcd_db) = inr rows
        /\ rows ≡ₚ [task_view task_C])
  /\ (forall v, TaskView.due_date v = None ->
        view_overdue 100 v = false /\ view_due_today 100 v = false
        /\ view_upcoming 100 v = false).
Proof.
  apply (list_tasks_due_buckets contains_exact 100 None None None None abcd_db
           [task_view task_D; task_view task_C; task_view task_A;
            task_view task_B]).
  vm_compute. reflexivity.
Defined.

(** C9 (the claim as written fails): the first request is stored with the
    readings 1000 and 1001, then completed by an update that reads 500; the
    record's [updated_at] is before its [created_at]. *)
Lemma timestamps_after_clock_set_back :
  history [500; 1001; 1000] set_back_db
  /\ set_back_db !! 1 = Some set_back_row
  /\ Task.updated_at set_back_row < Task.created_at set_back_row.
Proof.
  split; [| split; reflexivity].
  apply (history_update [1001; 1000] first_db 500 1 complete_only true).
  - apply (history_create [] ∅ 1000 1001 first_request (Some 1)).
    + apply history_start.
    + vm_compute. reflexivity.
  - vm_compute. reflexivity.
Qed.

Lemma history_task_invariants_witness :
  never_set_back [1500; 1001; 1000]
  /\ (PyStr.truthy "Draft budget" = true
      /\ PyStr.all_space "Draft budget" = false)
  /\ (Some 2 = None \/ user_exists (Some 2) = true)
  /\ In "low" ["low"; "medium"; "high"]
  /\ (never_set_back [1500; 1001; 1000] -> 1000 <= 1500).
Proof.
  split; [repeat constructor; lia |].
  apply (history_task_invariants [1500; 1001; 1000]
           (<[1 := Task.mk (Some 1) "Draft budget" "" false (Some 2) "low"
                     (Some 90) 1000 1500]> ∅)
           1
           (Task.mk (Some 1) "Draft budget" "" false (Some 2) "low"
              (Some 90) 1000 1500)).
  - apply (history_update [1001; 1000] first_db 1500 1
             (TaskUpdate.mk None None (Some 2) None None None) true).
    + apply (history_create [] ∅ 1000 1001 first_request (Some 1)).
      * apply history_start.
      * vm_compute. reflexivity.
    + vm_compute. reflexivity.
  - reflexivity.
Defined.

(** Why the histories ask that the clock does not go back: an update made
    with a reading of 500 on a record created at 1000 stores an [updated_at]
    that is before its [created_at]. *)
Example update_task_with_clock_set_back :
  exists t',
    snd (update_task 500 1 complete_only abc_db) !! 1 = Some t'
    /\ Task.updated_at t' < Task.created_at t'.
Proof. eexists. split; [vm_compute; reflexivity | reflexivity]. Qed.

(** * Further properties *)

(** ** Strings *)

Lemma lstrip_blank (s : string) :
  PyStr.all_space s = true -> PyStr.lstrip s = EmptyString.
Proof.
  induction s as [|c r IH]; cbn; [reflexivity |].
  destruct (PyStr.isspace c); cbn; [exact IH | discriminate].
Qed.

Lemma strip_blank (s : string) :
  PyStr.all_space s = true -> PyStr.strip s = EmptyString.
Proof. intros H. unfold PyStr.strip. now rewrite lstrip_blank. Qed.

Lemma lstrip_not_blank (s : string) :
  PyStr.all_space s = false -> PyStr.truthy (PyStr.lstrip s) = true.
Proof.
  induction s as [|c r IH]; cbn; [discriminate |].
  destruct (PyStr.isspace c); cbn; [exact IH | reflexivity].
Qed.

(** Stripping gives the empty string exactly for a blank string. *)
Lemma strip_truthy_iff (s : string) :
  PyStr.truthy (PyStr.strip s) = negb (PyStr.all_space s).
Proof.
  destruct (PyStr.all_space s) eqn:E; cbn.
  - now rewrite strip_blank.
  - unfold PyStr.strip. apply lstrip_not_blank in E.
    destruct (lstrip_head s) as [E' | (c & r & E' & Hc)]; rewrite E' in *.
    + discriminate.
    + destruct (rstrip_head c r Hc) as [r' ->]. reflexivity.
Qed.

Lemma rstrip_idem (s : string) : PyStr.rstrip (PyStr.rstrip s) = PyStr.rstrip s.
Proof.
  induction s as [|c r IH]; [reflexivity |]. cbn [PyStr.rstrip].
  destruct (PyStr.rstrip r) as [|c' r'] eqn:E.
  - destruct (PyStr.isspace c) eqn:Ec; [reflexivity |].
    cbn. now rewrite Ec.
  - cbn [PyStr.rstrip] in *. now rewrite IH.
Qed.

Lemma lstrip_head_fixed (c : ascii) (r : string) :
  PyStr.isspace c = false -> PyStr.lstrip (String c r) = String c r.
Proof. intros H. cbn. now rewrite H. Qed.

Lemma strip_idem (s : string) : PyStr.strip (PyStr.strip s) = PyStr.strip s.
Proof.
  unfold PyStr.strip.
  destruct (lstrip_head s) as [E | (c & r & E & Hc)]; rewrite E.
  - reflexivity.
  - destruct (rstrip_head c r Hc) as [r' Hr].
    rewrite Hr at 1. rewrite (lstrip_head_fixed c r' Hc). rewrite <- Hr.
    apply rstrip_idem.
Qed.

Lemma lower_char_idem (c : ascii) :
  PyStr.lower_char (PyStr.lower_char c) = PyStr.lower_char c.
Proof. destruct c as [[] [] [] [] [] [] [] []]; reflexivity. Qed.

Lemma lower_idem (s : string) : PyStr.lower (PyStr.lower s) = PyStr.lower s.
Proof.
  induction s as [|c r IH]; cbn; [reflexivity |].
  now rewrite lower_char_idem, IH.
Qed.

Lemma lower_truthy (s : string) : PyStr.truthy (PyStr.lower s) = PyStr.truthy s.
Proof. now destruct s. Qed.

Lemma allowed_is_lower (p : string) :
  in_allowed p = true -> PyStr.lower p = p.
Proof.
  intros H. destruct (in_allowed_cases p H) as [-> | [-> | ->]]; reflexivity.
Qed.

(** ** The directory *)

Lemma user_exists_range (a : Z) :
  user_exists (Some a) = true <-> 1 <= a <= 4.
Proof.
  unfold user_exists, TEAM_MEMBERS. cbn [existsb member_id].
  rewrite !orb_true_iff, !Z.eqb_eq.
  split; [intros [H | [H | [H | [H | H]]]]; try lia; discriminate | lia].
Qed.

Lemma user_exists_listed (a : Z) :
  user_exists (Some a) = true
  <-> exists m, In m list_users /\ member_id m = a.
Proof.
  unfold user_exists, list_users. rewrite existsb_exists.
  split; intros (m & Hm & Heq); exists m; split; auto.
  - now apply Z.eqb_eq.
  - now apply Z.eqb_eq.
Qed.

(** ** Generated keys *)

Lemma next_rowid_bounds (db : Table) :
  1 <= next_rowid db
  /\ forall k t, db !! k = Some t -> k < next_rowid db.
Proof.
  unfold next_rowid.
  assert (H : 0 <= map_fold (fun k (_ : Task.t) acc => Z.max k acc) 0 db
              /\ forall k t, db !! k = Some t ->
                   k <= map_fold (fun k (_ : Task.t) acc => Z.max k acc) 0 db).
  { apply (map_fold_weak_ind
             (fun r (m : Table) =>
                0 <= r /\ forall k t, m !! k = Some t -> k <= r)).
    - split; [lia |]. intros k t Hk. now rewrite lookup_empty in Hk.
    - intros i x m r Hi (Hr & IH). split; [lia |].
      intros k t Hk. destruct (decide (i = k)) as [-> | Hne].
      + lia.
      + rewrite lookup_insert_ne in Hk by assumption.
        specialize (IH k t Hk). lia. }
  destruct H as (H0 & H1). split; [lia |].
  intros k t Hk. specialize (H1 k t Hk). lia.
Qed.

Lemma next_rowid_fresh (db : Table) : db !! next_rowid db = None.
Proof.
  destruct (db !! next_rowid db) as [t|] eqn:E; [| reflexivity].
  apply (proj2 (next_rowid_bounds db)) in E. lia.
Qed.

(** ** [create_task] *)

Lemma strip_or_empty (d : string) :
  PyStr.strip (if PyStr.truthy d then d else "") = PyStr.strip d.
Proof. now destruct d. Qed.

(** X1: a request whose title is not blank, whose assignee is in the
    directory and whose priority is one of low, medium, high in any letter
    case is accepted: the answer is a key the table did not hold, under
    which the new record is stored with the stripped title and description,
    the lower-cased priority, [completed] false and the two clock readings;
    every other row is what it was. *)
Theorem create_task_stores (now_created now_updated : Z)
    (payload : TaskCreate.t) (db : Table) :
  PyStr.all_space (TaskCreate.title payload) = false ->
  user_exists (TaskCreate.assignee_id payload) = true ->
  In (PyStr.lower (TaskCreate.priority payload)) ALLOWED_PRIORITIES ->
  exists key db',
    create_task now_created now_updated payload db = (inr (Some key), db')
    /\ db !! key = None
    /\ db' !! key =
       Some (Task.mk (Some key)
               (PyStr.strip (TaskCreate.title payload))
               (PyStr.strip (TaskCreate.description payload))
               false
               (TaskCreate.assignee_id payload)
               (PyStr.lower (TaskCreate.priority payload))
               (TaskCreate.due_date payload)
               now_created now_updated)
    /\ forall k, k <> key -> db' !! k = db !! k.
Proof.
  intros Ht Ha Hp. rewrite create_task_run.
  rewrite strip_truthy_iff, Ht, Ha. cbn [negb].
  apply in_allowed_In in Hp. unfold validate_priority. rewrite Hp.
  cbn [negb]. eexists _, _. split; [reflexivity |].
  split; [apply next_rowid_fresh |].
  split; [rewrite lookup_insert_eq, strip_or_empty; reflexivity |].
  intros k Hk. now rewrite lookup_insert_ne by congruence.
Qed.

(** X2: a request whose title is empty or made of white space only is
    rejected with the 400 error "title is required", whatever else it
    holds, and the table is unchanged. *)
Theorem create_task_blank_title (now_created now_updated : Z)
    (payload : TaskCreate.t) (db : Table) :
  PyStr.all_space (TaskCreate.title payload) = true ->
  create_task now_created now_updated payload db
  = (inl (mkHTTPException 400 "title is required"), db).
Proof.
  intros Ht. rewrite create_task_run, strip_truthy_iff, Ht. reflexivity.
Qed.

(** X3: for a title that is not blank, the request is rejected with
    "assignee_id is invalid" exactly when its assignee is not the id of a
    member listed by [GET /users] (a missing assignee included). *)
Theorem create_task_assignee_listed (now_created now_updated : Z)
    (payload : TaskCreate.t) (db : Table) :
  PyStr.all_space (TaskCreate.title payload) = false ->
  create_task now_created now_updated payload db
  = (inl (mkHTTPException 400 "assignee_id is invalid"), db)
  <-> ~ exists m, In m list_users
                  /\ TaskCreate.assignee_id payload = Some (member_id m).
Proof.
  intros Ht. rewrite create_task_run, strip_truthy_iff, Ht. cbn [negb].
  destruct (TaskCreate.assignee_id payload) as [a|] eqn:Ea.
  - destruct (user_exists (Some a)) eqn:Eu; cbn [negb].
    + apply user_exists_listed in Eu as (m & Hm & <-). split.
      * unfold validate_priority.
        destruct (negb _); intros H; inversion H.
      * intros Hno. exfalso. apply Hno. eauto.
    + split; [| reflexivity]. intros _ (m & Hm & Heq).
      inversion Heq; subst a.
      assert (user_exists (Some (member_id m)) = true)
        by (apply user_exists_listed; eauto).
      congruence.
  - cbn [user_exists negb]. split; [| reflexivity].
    intros _ (m & _ & Heq). discriminate.
Qed.

(** X4: whenever [create_task] raises, the error is a 400 and the table is
    unchanged. *)
Theorem create_task_failure (now_created now_updated : Z)
    (payload : TaskCreate.t) (db db' : Table) (e : HTTPException) :
  create_task now_created now_updated payload db = (inl e, db') ->
  status_code e = 400 /\ db' = db.
Proof.
  rewrite create_task_run. intros H.
  destruct (negb (PyStr.truthy _)); [inversion H; auto |].
  destruct (negb (user_exists _)); [inversion H; auto |].
  destruct (validate_priority _) as [e'|pr] eqn:Ev; inversion H; subst.
  apply validate_priority_err in Ev as (-> & _). auto.
Qed.

(** X5: deleting the task a successful [create_task] has just stored gives
    back the table as it was before the creation. *)
Theorem create_then_delete (now_created now_updated : Z)
    (payload : TaskCreate.t) (db db' : Table) (key : Z) :
  create_task now_created now_updated payload db = (inr (Some key), db') ->
  delete_task key db' = (inr true, db).
Proof.
  rewrite create_task_run. intros H.
  destruct (negb (PyStr.truthy _)); [discriminate |].
  destruct (negb (user_exists _)); [discriminate |].
  destruct (validate_priority _) as [e'|pr]; inversion H; subst.
  rewrite delete_task_run, lookup_insert_eq.
  now rewrite delete_insert_id by apply next_rowid_fresh.
Qed.

(** ** [delete_task] *)

(** X6: deleting an id the table does not hold raises the 404 error and
    changes nothing; deleting an id it holds answers ok, removes that row
    and no other. *)
Theorem delete_task_effect (task_id : Z) (db : Table) :
  (db !! task_id = None ->
   delete_task task_id db
   = (inl (mkHTTPException 404 "Task not found"), db))
  /\ (forall t, db !! task_id = Some t ->
      exists db',
        delete_task task_id db = (inr true, db')
        /\ db' !! task_id = None
        /\ (forall k, k <> task_id -> db' !! k = db !! k)
        /\ size db = S (size db')).
Proof.
  rewrite delete_task_run. split.
  - now intros ->.
  - intros t Ht. rewrite Ht. eexists. split; [reflexivity |].
    split; [apply lookup_delete_eq |].
    split; [intros k Hk; now apply lookup_delete_ne |].
    rewrite map_size_delete_Some by eauto.
    assert (size db <> 0%nat)
      by (intros H0; apply map_size_empty_iff in H0; subst;
          now rewrite lookup_empty in Ht).
    lia.
Qed.

(** X7: a second deletion of the same id always raises the 404 error and
    leaves the table as the first one left it. *)
Theorem delete_task_twice (task_id : Z) (db : Table) :
  delete_task task_id (snd (delete_task task_id db))
  = (inl (mkHTTPException 404 "Task not found"),
     snd (delete_task task_id db)).
Proof.
  rewrite (delete_task_run task_id db).
  destruct (db !! task_id) eqn:E; cbn [snd]; rewrite delete_task_run.
  - now rewrite lookup_delete_eq.
  - now rewrite E.
Qed.

(** ** [update_task] *)

(** The message of a rejected update is that of the first check that
    fails, in the order title, assignee, priority. *)
Lemma update_body_detail (now key : Z) (payload : TaskUpdate.t) (c w : Table)
    (t : Task.t) :
  match update_body now key payload (mkSession c (<[key := t]> w)) with
  | (inl e, _) =>
      e = mkHTTPException 400
            (if negb (title_accepted payload) then "title cannot be empty"
             else if negb (assignee_accepted payload)
             then "assignee_id is invalid"
             else "priority must be one of low|medium|high")
  | (inr _, _) => True
  end.
Proof.
  assert (Hlook : (<[key := t]> w) !! key = Some t) by apply lookup_insert_eq.
  unfold update_body, title_accepted, assignee_accepted, priority_accepted.
  unfold bind at 1. unfold session_get at 1. cbn [working]. rewrite Hlook.
  cbv beta iota.
  destruct payload as [ti de asg co pr du]; cbn [TaskUpdate.title
    TaskUpdate.description TaskUpdate.assignee_id TaskUpdate.completed
    TaskUpdate.priority TaskUpdate.due_date].
  unfold bind at 1.
  destruct ti as [v|]; cbn [negb andb];
    [destruct (PyStr.truthy (PyStr.strip v)) eqn:Et; cbn [negb andb];
       [rewrite setattr_loaded | unfold raise; reflexivity]
    | unfold ret at 1]; cbv beta iota.
  all: unfold bind at 1;
    (destruct de as [v'|]; [rewrite setattr_loaded | unfold ret at 1]);
    cbv beta iota.
  all: unfold bind at 1;
    (destruct asg as [a|]; cbn [negb andb];
      [destruct (user_exists (Some a)) eqn:Ea; cbn [negb andb];
         [rewrite setattr_loaded | unfold raise; reflexivity]
      | unfold ret at 1]); cbv beta iota.
  all: unfold bind at 1;
    (destruct co as [b|]; [rewrite setattr_loaded | unfold ret at 1]);
    cbv beta iota.
  all: unfold bind at 1;
    (destruct pr as [p|]; cbn [negb andb];
      [unfold bind at 1, lift at 1, validate_priority;
       destruct (in_allowed (PyStr.lower p)) eqn:Ep; cbn [negb andb];
         [cbv beta iota; rewrite setattr_loaded | reflexivity]
      | unfold ret at 1]); cbv beta iota.
  all: unfold bind at 1;
    (destruct du as [d|]; [rewrite setattr_loaded | unfold ret at 1]);
    cbv beta iota.
  all: unfold bind at 1; rewrite setattr_loaded; cbv beta iota.
  all: unfold bind, session_add, ret, session_commit, session_refresh;
    cbn [working committed fst snd]; exact I.
Qed.

Lemma updated_idem (now : Z) (payload : TaskUpdate.t) (t : Task.t) :
  updated now payload (updated now payload t) = updated now payload t.
Proof.
  destruct payload as [[?|] [?|] [?|] [?|] [?|] [?|]], t; reflexivity.
Qed.

(** X8: an update of an id the table does not hold raises the 404 error and
    changes nothing, even when the request would not pass validation. *)
Theorem update_task_missing (now task_id : Z) (payload : TaskUpdate.t)
    (db : Table) :
  db !! task_id = None ->
  update_task now task_id payload db
  = (inl (mkHTTPException 404 "Task not found"), db).
Proof.
  intros Hget. pose proof (update_task_run now task_id payload db) as H.
  now rewrite Hget in H.
Qed.

(** X9: a successful update answers ok, keeps the number of rows, leaves
    every other row as it was, and keeps the id of the row it changes. *)
Theorem update_task_frame (now task_id : Z) (payload : TaskUpdate.t)
    (db db' : Table) (r : bool) :
  update_task now task_id payload db = (inr r, db') ->
  r = true
  /\ size db' = size db
  /\ (forall k, k <> task_id -> db' !! k = db !! k)
  /\ exists t t',
       db !! task_id = Some t /\ db' !! task_id = Some t'
       /\ Task.id t' = Task.id t.
Proof.
  intros Hrun. pose proof (update_task_run now task_id payload db) as H.
  destruct (update_task_ok _ _ _ _ _ _ Hrun) as (t & Hget & Ht & Ha & Hp & ->).
  rewrite Hget, Ht, Ha, Hp in H. cbn [andb] in H.
  split; [congruence |].
  split; [apply map_size_insert_Some; eauto |].
  split; [intros k Hk; now rewrite lookup_insert_ne by congruence |].
  exists t, (updated now payload t).
  split; [assumption |]. split; [apply lookup_insert_eq | reflexivity].
Qed.

(** X10: repeating a successful update with the same request and the same
    clock reading succeeds and changes nothing more. *)
Theorem update_task_idempotent (now task_id : Z) (payload : TaskUpdate.t)
    (db db' : Table) (r : bool) :
  update_task now task_id payload db = (inr r, db') ->
  update_task now task_id payload db' = (inr true, db').
Proof.
  intros Hrun.
  destruct (update_task_ok _ _ _ _ _ _ Hrun) as (t & Hget & Ht & Ha & Hp & ->).
  pose proof (update_task_run now task_id payload
                (<[task_id := updated now payload t]> db)) as H.
  rewrite lookup_insert_eq, Ht, Ha, Hp in H. cbn [andb] in H.
  now rewrite updated_idem, insert_insert_eq in H.
Qed.

(** X11: on a task the table holds, a rejected update carries the message
    of the first check that fails, in the order title ("title cannot be
    empty"), assignee ("assignee_id is invalid"), priority; when no check
    fails the update is stored. *)
Theorem update_task_first_error (now task_id : Z) (payload : TaskUpdate.t)
    (db : Table) (t : Task.t) :
  db !! task_id = Some t ->
  update_task now task_id payload db
  = if negb (title_accepted payload)
    then (inl (mkHTTPException 400 "title cannot be empty"), db)
    else if negb (assignee_accepted payload)
    then (inl (mkHTTPException 400 "assignee_id is invalid"), db)
    else if negb (priority_accepted payload)
    then (inl (mkHTTPException 400
                 "priority must be one of low|medium|high"), db)
    else (inr true, <[task_id := updated now payload t]> db).
Proof.
  intros Hget.
  pose proof (update_body_run now task_id payload db db t Hget) as Hrun.
  pose proof (update_body_detail now task_id payload db db t) as Hdet.
  rewrite (insert_id db task_id t Hget) in Hdet.
  unfold update_task, bind, with_session.
  destruct (update_body now task_id payload (mkSession db db))
    as [[e|[]] s'].
  - destruct Hrun as (Hacc & _ & ->). subst e.
    destruct (title_accepted payload); [| reflexivity].
    destruct (assignee_accepted payload); [| reflexivity].
    destruct (priority_accepted payload); [discriminate | reflexivity].
  - destruct Hrun as (Hacc & ->).
    apply andb_prop in Hacc as [Hacc ->].
    apply andb_prop in Hacc as [-> ->]. reflexivity.
Qed.

(** ** [list_tasks]: what the answer holds *)

Lemma table_rows_In (db : Table) (t : Task.t) :
  In t (table_rows db) <-> exists k, db !! k = Some t.
Proof.
  unfold table_rows. rewrite <- list_elem_of_In, list_elem_of_fmap. split.
  - intros ([k t'] & -> & Hin). exists k. now apply elem_of_map_to_list.
  - intros (k & Hk). exists (k, t). split; [reflexivity |].
    now apply elem_of_map_to_list.
Qed.

(** The elements of an answer are the views of the selected rows. *)
Lemma answer_In (sel : Task.t -> bool) (db : Table) (v : TaskView.t) :
  In v (List.map task_view
          (merge_sort task_order (List.filter sel (table_rows db))))
  <-> exists k t, db !! k = Some t /\ sel t = true /\ v = task_view t.
Proof.
  rewrite in_map_iff. split.
  - intros (t & <- & Hin).
    apply (Permutation_in _ (merge_sort_Permutation _ _)) in Hin.
    apply filter_In in Hin as (Hin & Hsel).
    apply table_rows_In in Hin as (k & Hk). eauto.
  - intros (k & t & Hk & Hsel & ->). exists t. split; [reflexivity |].
    apply (Permutation_in _ (Permutation_sym (merge_sort_Permutation _ _))).
    apply filter_In. split; [| assumption].
    apply table_rows_In. eauto.
Qed.

Lemma priority_filter_given (p pr : string) (o : option string) :
  p <> EmptyString ->
  priority_filter (Some p) = inr o -> o = Some (PyStr.lower p).
Proof.
  intros Hne. unfold priority_filter. cbn [truthy_str].
  destruct p; [congruence |]. cbn [PyStr.truthy].
  destruct (validate_priority _) as [e|q] eqn:Ev; intros H; inversion H.
  apply validate_priority_ok in Ev as (-> & _). reflexivity.
Qed.

Section ListTasksAnswer.

Variable contains : string -> string -> bool.

(** X12: every element of an answer is the view of a stored row, and that
    row passes each filter that was given: its completion is the one asked
    by status=complete or status=incomplete, its assignee is the one asked,
    its priority is the lower-cased one asked, and its title or its
    description contains the text searched. *)
Theorem list_tasks_filters_sound (today : Z) (search status : option string)
    (assignee_id : option Z) (priority due : option string) (db : Table)
    (rows : list TaskView.t) :
  fst (list_tasks contains today search status assignee_id priority due db)
  = inr rows ->
  forall v, In v rows ->
    (exists k t, db !! k = Some t /\ v = task_view t)
    /\ (status = Some "complete" -> TaskView.completed v = true)
    /\ (status = Some "incomplete" -> TaskView.completed v = false)
    /\ (forall a, assignee_id = Some a -> TaskView.assignee_id v = Some a)
    /\ (forall p, priority = Some p -> p <> EmptyString ->
          TaskView.priority v = PyStr.lower p)
    /\ (forall s, search = Some s -> s <> EmptyString ->
          contains (TaskView.title v) s
          || contains (TaskView.description v) s = true).
Proof.
  rewrite list_tasks_run.
  destruct (priority_filter priority) as [e|pr] eqn:Epr; cbn [fst];
    [discriminate |].
  intros Hrows v Hv. inversion Hrows; subst rows; clear Hrows.
  apply answer_In in Hv as (k & t & Hk & Hsel & ->).
  unfold selects in Hsel.
  apply andb_prop in Hsel as [Hsel Hdue].
  apply andb_prop in Hsel as [Hsel Hpri].
  apply andb_prop in Hsel as [Hsel Hasg].
  apply andb_prop in Hsel as [Hsea Hsta].
  cbn [task_view TaskView.completed TaskView.assignee_id TaskView.priority
       TaskView.title TaskView.description].
  split; [eauto |]. repeat split.
  - intros ->. cbn in Hsta. now destruct (Task.completed t).
  - intros ->. cbn in Hsta. now destruct (Task.completed t).
  - intros a ->. cbn in Hasg. destruct (Task.assignee_id t) as [x|];
      [| discriminate]. cbn in Hasg. apply Z.eqb_eq in Hasg. now subst.
  - intros p -> Hne. apply (priority_filter_given p p) in Epr; [| assumption].
    subst pr. cbn in Hpri. now apply String.eqb_eq in Hpri.
  - intros s -> Hne. unfold sel_search in Hsea. cbn [truthy_str] in Hsea.
    destruct s; [congruence |]. exact Hsea.
Qed.

(** X13: without any filter the call returns, changes nothing, and answers
    one element for each stored row: the views of the rows of the table. *)
Theorem list_tasks_all (today : Z) (db : Table) :
  exists rows,
    list_tasks contains today None None None None None db = (inr rows, db)
    /\ length rows = size db
    /\ forall v, In v rows <-> exists k t, db !! k = Some t /\ v = task_view t.
Proof.
  rewrite list_tasks_run. cbn [priority_filter truthy_str].
  eexists. split; [reflexivity |]. split.
  - rewrite length_map, (Permutation_length (merge_sort_Permutation _ _)).
    erewrite filter_ext; [rewrite filter_true | reflexivity].
    unfold table_rows. now rewrite length_fmap, length_map_to_list.
  - intros v. rewrite answer_In. split.
    + intros (k & t & Hk & _ & ->). eauto.
    + intros (k & t & Hk & ->). exists k, t. auto.
Qed.

(** X14: [GET /tasks?assignee_id=a&status=incomplete] answers exactly the
    views of the stored rows whose assignee is [a] and that are not
    completed. *)
Theorem list_tasks_open_of_assignee (today a : Z) (db : Table) :
  exists rows,
    list_tasks contains today None (Some "incomplete") (Some a) None None db
    = (inr rows, db)
    /\ forall v,
         In v rows
         <-> exists k t, db !! k = Some t /\ v = task_view t
                         /\ Task.assignee_id t = Some a
                         /\ Task.completed t = false.
Proof.
  rewrite list_tasks_run. cbn [priority_filter truthy_str].
  eexists. split; [reflexivity |].
  intros v. rewrite answer_In. unfold selects. cbn.
  split.
  - intros (k & t & Hk & Hsel & ->). exists k, t.
    rewrite !andb_true_r in Hsel. apply andb_prop in Hsel as [Hc Ha].
    destruct (Task.assignee_id t) as [x|]; [| discriminate].
    cbn in Ha. apply Z.eqb_eq in Ha. subst x.
    destruct (Task.completed t); [discriminate | auto].
  - intros (k & t & Hk & -> & Ha & Hc). exists k, t.
    rewrite Ha, Hc. cbn. rewrite Z.eqb_refl. auto.
Qed.

(** X15: an empty search text is no filter: the call is the one made
    without a search text. *)
Theorem list_tasks_empty_search (today : Z) (status : option string)
    (assignee_id : option Z) (priority due : option string) (db : Table) :
  list_tasks contains today (Some "") status assignee_id priority due db
  = list_tasks contains today None status assignee_id priority due db.
Proof.
  rewrite !list_tasks_run.
  destruct (priority_filter priority); reflexivity.
Qed.

(** X16: the priority filter does not depend on the letter case: a value
    and its lower-cased form give the same call. *)
Theorem list_tasks_priority_case (today : Z) (search status : option string)
    (assignee_id : option Z) (p : string) (due : option string) (db : Table) :
  list_tasks contains today search status assignee_id
    (Some (PyStr.lower p)) due db
  = list_tasks contains today search status assignee_id (Some p) due db.
Proof.
  rewrite !list_tasks_run. unfold priority_filter. cbn [truthy_str].
  rewrite lower_truthy. unfold validate_priority. now rewrite lower_idem.
Qed.

End ListTasksAnswer.

(** ** [list_tasks]: names and partitions *)

Lemma user_map_lookup (a : Z) :
  user_map !! a
  = if a =? 4 then Some "Tom" else if a =? 3 then Some "Peter"
    else if a =? 2 then Some "John" else if a =? 1 then Some "Harry"
    else None.
Proof.
  unfold user_map, TEAM_MEMBERS. cbn [foldl member_id member_name].
  destruct (Z.eqb_spec a 4) as [-> | H4]; [apply lookup_insert_eq |].
  rewrite lookup_insert_ne by congruence.
  destruct (Z.eqb_spec a 3) as [-> | H3]; [apply lookup_insert_eq |].
  rewrite lookup_insert_ne by congruence.
  destruct (Z.eqb_spec a 2) as [-> | H2]; [apply lookup_insert_eq |].
  rewrite lookup_insert_ne by congruence.
  destruct (Z.eqb_spec a 1) as [-> | H1]; [apply lookup_insert_eq |].
  rewrite lookup_insert_ne by congruence.
  apply lookup_empty.
Qed.

(** The name shown for a row: the member's when the assignee is a member,
    "Unassigned" otherwise. *)
Lemma task_view_assignee_name (t : Task.t) :
  (forall m, In m list_users -> Task.assignee_id t = Some (member_id m) ->
     TaskView.assignee_name (task_view t) = member_name m)
  /\ ((~ exists m, In m list_users
                   /\ Task.assignee_id t = Some (member_id m)) ->
      TaskView.assignee_name (task_view t) = "Unassigned").
Proof.
  unfold task_view. cbn [TaskView.assignee_name]. split.
  - intros m Hm ->. unfold list_users, TEAM_MEMBERS in Hm. cbn in Hm.
    destruct Hm as [<- | [<- | [<- | [<- | []]]]]; reflexivity.
  - intros Hno. destruct (Task.assignee_id t) as [a|]; [| reflexivity].
    cbn [truthy_int mbind option_bind]. rewrite user_map_lookup.
    assert (Hout : ~ (1 <= a <= 4)).
    { intros Hin. apply user_exists_range, user_exists_listed in Hin
        as (m & Hm & <-). apply Hno. eauto. }
    destruct (Z.eqb_spec a 4); [lia |]. destruct (Z.eqb_spec a 3); [lia |].
    destruct (Z.eqb_spec a 2); [lia |]. destruct (Z.eqb_spec a 1); [lia |].
    now destruct (negb (a =? 0)).
Qed.

Lemma filter_split {A} (f g h : A -> bool) (l : list A) :
  (forall x, f x = g x || h x) ->
  (forall x, g x && h x = false) ->
  List.filter f l ≡ₚ List.filter g l ++ List.filter h l.
Proof.
  intros Hor Hex. induction l as [|a l IH]; cbn; [reflexivity |].
  rewrite Hor. specialize (Hex a).
  destruct (g a), (h a); cbn; try discriminate.
  - now constructor.
  - rewrite IH. apply Permutation_middle.
  - exact IH.
Qed.

Lemma due_split (today : Z) (l : list TaskView.t) :
  l ≡ₚ List.filter (view_overdue today) l
       ++ List.filter (view_due_today today) l
       ++ List.filter (view_upcoming today) l
       ++ List.filter
            (fun v => negb (col_is_not_null (TaskView.due_date v))) l.
Proof.
  induction l as [|v l IH]; cbn; [reflexivity |].
  unfold view_overdue at 1, view_due_today at 1, view_upcoming at 1.
  destruct (TaskView.due_date v) as [d|]; cbn.
  - destruct (Z.ltb_spec d today); cbn.
    + destruct (Z.eqb_spec d today); [lia |].
      destruct (Z.ltb_spec today d); [lia |]. now constructor.
    + destruct (Z.eqb_spec d today).
      * destruct (Z.ltb_spec today d); [lia |].
        rewrite IH at 1. apply Permutation_middle.
      * destruct (Z.ltb_spec today d); [| lia].
        rewrite IH at 1. etransitivity; [apply Permutation_middle |].
        apply Permutation_app_head, Permutation_middle.
  - rewrite IH at 1. etransitivity; [apply Permutation_middle |].
    apply Permutation_app_head.
    etransitivity; [apply Permutation_middle |].
    apply Permutation_app_head, Permutation_middle.
Qed.

Section ListTasksPartition.

Variable contains : string -> string -> bool.

(** X17: in every answer, the name shown with a task is the name
    [GET /users] gives for its assignee when the assignee is a listed
    member, and "Unassigned" otherwise. *)
Theorem list_tasks_assignee_name (today : Z) (search status : option string)
    (assignee_id : option Z) (priority due : option string) (db : Table)
    (rows : list TaskView.t) :
  fst (list_tasks contains today search status assignee_id priority due db)
  = inr rows ->
  forall v, In v rows ->
    (forall m, In m list_users ->
       TaskView.assignee_id v = Some (member_id m) ->
       TaskView.assignee_name v = member_name m)
    /\ ((~ exists m, In m list_users
                     /\ TaskView.assignee_id v = Some (member_id m)) ->
        TaskView.assignee_name v = "Unassigned").
Proof.
  rewrite list_tasks_run.
  destruct (priority_filter priority) as [e|pr]; cbn [fst]; [discriminate |].
  intros Hrows v Hv. inversion Hrows; subst rows; clear Hrows.
  apply answer_In in Hv as (k & t & _ & _ & ->).
  exact (task_view_assignee_name t).
Qed.

(** X18: the answers for status=incomplete and status=complete together
    hold the tasks of the answer without a status filter, each once. *)
Theorem list_tasks_status_partition (today : Z) (search : option string)
    (assignee_id : option Z) (priority due : option string) (db : Table)
    (all : list TaskView.t) :
  fst (list_tasks contains today search None assignee_id priority due db)
  = inr all ->
  exists opened done,
    fst (list_tasks contains today search (Some "incomplete") assignee_id
           priority due db) = inr opened
    /\ fst (list_tasks contains today search (Some "complete") assignee_id
              priority due db) = inr done
    /\ all ≡ₚ opened ++ done.
Proof.
  rewrite !list_tasks_run.
  destruct (priority_filter priority) as [e|pr]; cbn [fst]; [discriminate |].
  intros Hall. inversion Hall; subst all; clear Hall.
  eexists _, _. split; [reflexivity |]. split; [reflexivity |].
  rewrite <- map_app. apply Permutation_map.
  rewrite !merge_sort_Permutation.
  apply filter_split; intros t; unfold selects; cbn [sel_status is_str];
    cbn; destruct (sel_search contains search t), (Task.completed t),
      (sel_assignee assignee_id t), (sel_priority pr t),
      (sel_due today due t); reflexivity.
Qed.

(** X19: the answers for due=overdue, due=today and due=upcoming, together
    with the tasks of the unfiltered answer that have no due date, hold the
    tasks of the answer without a due filter, each once. *)
Theorem list_tasks_due_partition (today : Z) (search status : option string)
    (assignee_id : option Z) (priority : option string) (db : Table)
    (all : list TaskView.t) :
  fst (list_tasks contains today search status assignee_id priority None db)
  = inr all ->
  exists overdue due_today upcoming,
    fst (list_tasks contains today search status assignee_id priority
           (Some "overdue") db) = inr overdue
    /\ fst (list_tasks contains today search status assignee_id priority
              (Some "today") db) = inr due_today
    /\ fst (list_tasks contains today search status assignee_id priority
              (Some "upcoming") db) = inr upcoming
    /\ all ≡ₚ overdue ++ due_today ++ upcoming
              ++ List.filter
                   (fun v => negb (col_is_not_null (TaskView.due_date v)))
                   all.
Proof.
  rewrite !list_tasks_run.
  destruct (priority_filter priority) as [e|pr]; cbn [fst]; [discriminate |].
  intros Hall. inversion Hall; subst all; clear Hall.
  eexists _, _, _. repeat (split; [reflexivity |]).
  rewrite (due_bucket_rows contains today search status assignee_id pr
             (Some "overdue") (view_overdue today))
    by (intros t; unfold view_overdue; cbn;
        destruct (Task.due_date t); reflexivity).
  rewrite (due_bucket_rows contains today search status assignee_id pr
             (Some "today") (view_due_today today))
    by (intros t; unfold view_due_today; cbn;
        destruct (Task.due_date t); reflexivity).
  rewrite (due_bucket_rows contains today search status assignee_id pr
             (Some "upcoming") (view_upcoming today))
    by (intros t; unfold view_upcoming; cbn;
        destruct (Task.due_date t); reflexivity).
  apply due_split.
Qed.

(** X20: a task that [create_task] has just stored is in the answer of the
    unfiltered [list_tasks], with the generated id, the stripped title and
    [completed] false. *)
Theorem create_then_list (now_created now_updated today : Z)
    (payload : TaskCreate.t) (db db' : Table) (key : Z) :
  create_task now_created now_updated payload db = (inr (Some key), db') ->
  exists rows v,
    list_tasks contains today None None None None None db' = (inr rows, db')
    /\ In v rows
    /\ TaskView.id v = Some key
    /\ TaskView.title v = PyStr.strip (TaskCreate.title payload)
    /\ TaskView.completed v = false
    /\ TaskView.created_at v = now_created.
Proof.
  rewrite create_task_run. intros H.
  destruct (negb (PyStr.truthy _)); [discriminate |].
  destruct (negb (user_exists _)); [discriminate |].
  destruct (validate_priority _) as [e'|pr]; inversion H; subst.
  rewrite list_tasks_run. cbn [priority_filter truthy_str].
  eexists _, _. split; [reflexivity |].
  split.
  - apply answer_In. eexists _, _. split; [apply lookup_insert_eq |].
    split; reflexivity.
  - repeat split.
Qed.

End ListTasksPartition.

(** ** Normal forms *)

(** X21: [validate_priority] does not depend on the letter case of its
    argument, and what it returns is one of low, medium, high that it
    returns unchanged when given again. *)
Theorem validate_priority_normal_form (v : string) :
  validate_priority (Some (PyStr.lower v)) = validate_priority (Some v)
  /\ forall p, validate_priority (Some v) = inr p ->
       In p ALLOWED_PRIORITIES /\ validate_priority (Some p) = inr p.
Proof.
  split.
  - unfold validate_priority. now rewrite lower_idem.
  - intros p Hp. apply validate_priority_ok in Hp as (-> & Hok).
    split; [now apply in_allowed_In |].
    unfold validate_priority. now rewrite lower_idem, Hok.
Qed.

Lemma reachable_row_wf (clock : Z) (db : Table) :
  reachable clock db -> map_Forall row_wf db.
Proof.
  induction 1 as
    [ clock
    | clock db n1 n2 payload r db' _ IH Hc Hn Hrun
    | clock db now key payload r db' _ IH Hc Hrun
    | clock db key r db' _ IH Hrun ].
  - apply map_Forall_empty.
  - rewrite create_task_run in Hrun.
    destruct (negb (PyStr.truthy _)); [inversion Hrun; now subst |].
    destruct (user_exists (TaskCreate.assignee_id payload)) eqn:Ea;
      cbn [negb] in Hrun; [| inversion Hrun; now subst].
    destruct (validate_priority _) as [e|pr]; inversion Hrun; subst;
      [exact IH |].
    apply map_Forall_insert_2; [| exact IH].
    unfold row_wf.
    cbn [Task.id Task.assignee_id Task.title Task.description].
    repeat split; auto using strip_idem.
    apply (proj1 (next_rowid_bounds db)).
  - destruct r as [e|b].
    + apply update_task_err in Hrun. now subst.
    + apply update_task_ok in Hrun as (t & Hget & Ht & Ha & Hp & ->).
      apply map_Forall_insert_2; [| exact IH].
      destruct (IH key t Hget) as (H1 & H2 & H3 & H4 & H5).
      unfold assignee_accepted in Ha.
      destruct payload as [ti de asg co pr du]; unfold row_wf, updated.
      cbn [Task.id Task.assignee_id Task.title Task.description
           TaskUpdate.title TaskUpdate.description TaskUpdate.assignee_id]
        in *.
      repeat split; try assumption.
      * now destruct asg.
      * destruct ti; cbn [from_option]; auto using strip_idem.
      * destruct de; cbn [from_option]; auto using strip_idem.
  - rewrite delete_task_run in Hrun.
    destruct (db !! key); inversion Hrun; subst; [| exact IH].
    now apply map_Forall_delete.
Qed.

(** X22: in every table reached by calls of the three writing endpoints,
    the record stored under a key carries that key as its id: the id an
    answer of [list_tasks] shows is the one [update_task] and [delete_task]
    find the task under. *)
Theorem reachable_ids (clock : Z) (db : Table) (key : Z) (t : Task.t) :
  reachable clock db -> db !! key = Some t ->
  Task.id t = Some key /\ TaskView.id (task_view t) = Some key.
Proof.
  intros Hreach Hget.
  destruct (reachable_row_wf clock db Hreach key t Hget) as (H1 & _).
  auto.
Qed.

(** X23: in every reachable table each record has an assignee, and it is
    one of the ids 1 to 4: no stored task is unassigned. *)
Theorem reachable_assigned (clock : Z) (db : Table) (key : Z) (t : Task.t) :
  reachable clock db -> db !! key = Some t ->
  exists a, Task.assignee_id t = Some a /\ 1 <= a <= 4.
Proof.
  intros Hreach Hget.
  destruct (reachable_row_wf clock db Hreach key t Hget)
    as (_ & _ & H3 & _).
  destruct (Task.assignee_id t) as [a|]; [| discriminate].
  exists a. split; [reflexivity | now apply user_exists_range].
Qed.

(** X24: in every reachable table the title and the description of a
    record are stripped and its priority is lower-cased: stripping or
    lower-casing them again changes nothing. *)
Theorem reachable_normalised (clock : Z) (db : Table) (key : Z) (t : Task.t) :
  reachable clock db -> db !! key = Some t ->
  PyStr.strip (Task.title t) = Task.title t
  /\ PyStr.strip (Task.description t) = Task.description t
  /\ PyStr.lower (Task.priority t) = Task.priority t.
Proof.
  intros Hreach Hget.
  destruct (reachable_row_wf clock db Hreach key t Hget)
    as (_ & _ & _ & H4 & H5).
  destruct (reachable_task_ok clock db Hreach key t Hget)
    as (_ & _ & _ & Hp & _).
  repeat split; try assumption.
  now apply allowed_is_lower, in_allowed_In.
Qed.

(** X25: on a reachable table, an update that sends back every field of a
    record as it is stored is accepted and changes nothing but
    [updated_at]. *)
Theorem update_task_write_back (clock now : Z) (db : Table) (key : Z)
    (t : Task.t) :
  reachable clock db -> db !! key = Some t ->
  update_task now key (write_back t) db
  = (inr true, <[key := Task.set_updated_at now t]> db).
Proof.
  intros Hreach Hget.
  destruct (reachable_row_wf clock db Hreach key t Hget)
    as (_ & _ & H3 & H4 & H5).
  destruct (reachable_task_ok clock db Hreach key t Hget)
    as (Ht & _ & _ & Hp & _).
  apply in_allowed_In in Hp.
  pose proof (update_task_run now key (write_back t) db) as H.
  rewrite Hget in H.
  unfold write_back in *.
  unfold title_accepted, assignee_accepted, priority_accepted in H.
  cbn [TaskUpdate.title TaskUpdate.assignee_id TaskUpdate.priority] in H.
  rewrite H4, Ht, (allowed_is_lower _ Hp), Hp in H.
  destruct (Task.assignee_id t) as [a|] eqn:Ea; [| discriminate].
  rewrite H3 in H. cbn [andb] in H. rewrite H. do 2 f_equal.
  unfold updated, Task.set_updated_at. cbn.
  rewrite H4, H5, Ea, (allowed_is_lower _ Hp).
  now destruct (Task.due_date t).
Qed.

(** ** The further properties on the sample data *)

Ltac first_db_reached :=
  apply (reach_create 0 ∅ 1000 1001 first_request (inr (Some 1)));
  [apply reach_init | lia | lia | vm_compute; reflexivity].

Lemma create_task_stores_witness :
  exists key db',
    create_task 1000 1001 first_request ∅ = (inr (Some key), db')
    /\ (∅ : Table) !! key = None
    /\ db' !! key =
       Some (Task.mk (Some key) "Draft budget" "" false (Some 1) "low"
               (Some 90) 1000 1001)
    /\ forall k, k <> key -> db' !! k = (∅ : Table) !! k.
Proof.
  apply (create_task_stores 1000 1001 first_request ∅).
  - reflexivity.
  - reflexivity.
  - left. reflexivity.
Defined.

Lemma create_task_blank_title_witness :
  create_task 1000 1001 (TaskCreate.mk "   " "x" (Some 1) "low" None) abc_db
  = (inl (mkHTTPException 400 "title is required"), abc_db).
Proof.
  apply (create_task_blank_title 1000 1001
           (TaskCreate.mk "   " "x" (Some 1) "low" None) abc_db).
  reflexivity.
Defined.

Lemma create_task_assignee_listed_witness :
  create_task 1000 1001 (TaskCreate.mk "Plan" "" (Some 7) "low" None) abc_db
  = (inl (mkHTTPException 400 "assignee_id is invalid"), abc_db)
  <-> ~ exists m, In m list_users /\ Some 7 = Some (member_id m).
Proof.
  apply (create_task_assignee_listed 1000 1001
           (TaskCreate.mk "Plan" "" (Some 7) "low" None) abc_db).
  reflexivity.
Defined.

Lemma create_task_failure_witness :
  status_code (mkHTTPException 400 "priority must be one of low|medium|high")
  = 400 /\ abc_db = abc_db.
Proof.
  apply (create_task_failure 1000 1001
           (TaskCreate.mk "Plan" "" (Some 2) "urgent" None) abc_db abc_db
           (mkHTTPException 400 "priority must be one of low|medium|high")).
  vm_compute. reflexivity.
Defined.

Lemma create_then_delete_witness :
  delete_task 1 first_db = (inr true, ∅).
Proof.
  apply (create_then_delete 1000 1001 first_request ∅ first_db 1).
  vm_compute. reflexivity.
Defined.

Lemma update_task_missing_witness :
  update_task 5000 7 hopeless_update abc_db
  = (inl (mkHTTPException 404 "Task not found"), abc_db).
Proof.
  apply (update_task_missing 5000 7 hopeless_update abc_db). reflexivity.
Defined.

Lemma update_task_frame_witness :
  true = true
  /\ size (snd (update_task 5000 1 complete_only abc_db)) = size abc_db
  /\ (forall k, k <> 1 ->
        snd (update_task 5000 1 complete_only abc_db) !! k = abc_db !! k)
  /\ exists t t',
       abc_db !! 1 = Some t
       /\ snd (update_task 5000 1 complete_only abc_db) !! 1 = Some t'
       /\ Task.id t' = Task.id t.
Proof.
  apply (update_task_frame 5000 1 complete_only abc_db
           (snd (update_task 5000 1 complete_only abc_db)) true).
  vm_compute. reflexivity.
Defined.

Lemma update_task_idempotent_witness :
  update_task 5000 1 complete_only
    (snd (update_task 5000 1 complete_only abc_db))
  = (inr true, snd (update_task 5000 1 complete_only abc_db)).
Proof.
  apply (update_task_idempotent 5000 1 complete_only abc_db
           (snd (update_task 5000 1 complete_only abc_db)) true).
  vm_compute. reflexivity.
Defined.

Lemma update_task_first_error_witness :
  update_task 5000 1 hopeless_update abc_db
  = (inl (mkHTTPException 400 "title cannot be empty"), abc_db).
Proof.
  apply (update_task_first_error 5000 1 hopeless_update abc_db task_A).
  reflexivity.
Defined.

Lemma reachable_ids_witness :
  Task.id first_row = Some 1 /\ TaskView.id (task_view first_row) = Some 1.
Proof.
  apply (reachable_ids 1001 first_db 1 first_row);
    [first_db_reached | reflexivity].
Defined.

Lemma reachable_assigned_witness :
  exists a, Task.assignee_id first_row = Some a /\ 1 <= a <= 4.
Proof.
  apply (reachable_assigned 1001 first_db 1 first_row);
    [first_db_reached | reflexivity].
Defined.

Lemma reachable_normalised_witness :
  PyStr.strip (Task.title first_row) = Task.title first_row
  /\ PyStr.strip (Task.description first_row) = Task.description first_row
  /\ PyStr.lower (Task.priority first_row) = Task.priority first_row.
Proof.
  apply (reachable_normalised 1001 first_db 1 first_row);
    [first_db_reached | reflexivity].
Defined.

Lemma update_task_write_back_witness :
  update_task 5000 1 (write_back first_row) first_db
  = (inr true, <[1 := Task.set_updated_at 5000 first_row]> first_db).
Proof.
  apply (update_task_write_back 1001 5000 first_db 1 first_row);
    [first_db_reached | reflexivity].
Defined.

Lemma list_tasks_filters_sound_witness :
  (exists k t, abc_db !! k = Some t /\ task_view task_C = task_view t)
  /\ (Some "incomplete" = Some "complete" ->
      TaskView.completed (task_view task_C) = true)
  /\ (Some "incomplete" = Some "incomplete" ->
      TaskView.completed (task_view task_C) = false)
  /\ (forall a, Some 4 = Some a ->
        TaskView.assignee_id (task_view task_C) = Some a)
  /\ (forall p, Some "MEDIUM" = Some p -> p <> EmptyString ->
        TaskView.priority (task_view task_C) = PyStr.lower p)
  /\ (forall s, Some "invites" = Some s -> s <> EmptyString ->
        contains_exact (TaskView.title (task_view task_C)) s
        || contains_exact (TaskView.description (task_view task_C)) s
        = true).
Proof.
  apply (list_tasks_filters_sound contains_exact 100 (Some "invites")
           (Some "incomplete") (Some 4) (Some "MEDIUM") None abc_db
           [task_view task_C]).
  - vm_compute. reflexivity.
  - left. reflexivity.
Defined.

Lemma list_tasks_assignee_name_witness :
  (forall m, In m list_users ->
     TaskView.assignee_id (task_view task_B) = Some (member_id m) ->
     TaskView.assignee_name (task_view task_B) = member_name m)
  /\ ((~ exists m, In m list_users
                   /\ TaskView.assignee_id (task_view task_B)
                      = Some (member_id m)) ->
      TaskView.assignee_name (task_view task_B) = "Unassigned").
Proof.
  apply (list_tasks_assignee_name contains_exact 100 None None None None None
           abc_db [task_view task_C; task_view task_A; task_view task_B]).
  - vm_compute. reflexivity.
  - right. right. left. reflexivity.
Defined.

Lemma list_tasks_status_partition_witness :
  exists opened done,
    fst (list_tasks contains_exact 100 None (Some "incomplete") None None
           None abc_db) = inr opened
    /\ fst (list_tasks contains_exact 100 None (Some "complete") None None
              None abc_db) = inr done
    /\ [task_view task_C; task_view task_A; task_view task_B]
       ≡ₚ opened ++ done.
Proof.
  apply (list_tasks_status_partition contains_exact 100 None None None None
           abc_db [task_view task_C; task_view task_A; task_view task_B]).
  vm_compute. reflexivity.
Defined.

Lemma list_tasks_due_partition_witness :
  exists overdue due_today upcoming,
    fst (list_tasks contains_exact 100 None None None None
           (Some "overdue") abcd_db) = inr overdue
    /\ fst (list_tasks contains_exact 100 None None None None
              (Some "today") abcd_db) = inr due_today
    /\ fst (list_tasks contains_exact 100 None None None None
              (Some "upcoming") abcd_db) = inr upcoming
    /\ [task_view task_D; task_view task_C; task_view task_A;
        task_view task_B]
       ≡ₚ overdue ++ due_today ++ upcoming ++ [task_view task_D].
Proof.
  apply (list_tasks_due_partition contains_exact 100 None None None None
           abcd_db
           [task_view task_D; task_view task_C; task_view task_A;
            task_view task_B]).
  vm_compute. reflexivity.
Defined.

Lemma create_then_list_witness :
  exists rows v,
    list_tasks contains_exact 100 None None None None None first_db
    = (inr rows, first_db)
    /\ In v rows
    /\ TaskView.id v = Some 1
    /\ TaskView.title v = "Draft budget"
    /\ TaskView.completed v = false
    /\ TaskView.created_at v = 1000.
Proof.
  apply (create_then_list contains_exact 1000 1001 100 first_request ∅
           first_db 1).
  vm_compute. reflexivity.
Defined.

(** ** What the endpoints never do *)

(** X26: no update clears an assignee or a due date: a record that has one
    before a successful update has one after it. *)
Theorem update_task_never_clears (now task_id : Z) (payload : TaskUpdate.t)
    (db db' : Table) (r : bool) (t t' : Task.t) :
  update_task now task_id payload db = (inr r, db') ->
  db !! task_id = Some t -> db' !! task_id = Some t' ->
  (Task.assignee_id t <> None -> Task.assignee_id t' <> None)
  /\ (Task.due_date t <> None -> Task.due_date t' <> None).
Proof.
  intros Hrun Hget Hget'.
  apply update_task_ok in Hrun as (t0 & Hget0 & _ & _ & _ & ->).
  rewrite lookup_insert_eq in Hget'.
  assert (t0 = t) by congruence. subst t0.
  inversion Hget'; subst t'. unfold updated.
  cbn [Task.assignee_id Task.due_date].
  split; intros H.
  - now destruct (TaskUpdate.assignee_id payload).
  - now destruct (TaskUpdate.due_date payload).
Qed.

Lemma length_filter_le {A} (f : A -> bool) (l : list A) :
  (length (List.filter f l) <= length l)%nat.
Proof.
  induction l as [|a l IH]; cbn; [lia |]. destruct (f a); cbn; lia.
Qed.

Section ListTasksReadOnly.

Variable contains : string -> string -> bool.

(** X27: [list_tasks] never changes the table, whether it returns or
    raises, and its answer never has more elements than the table has
    rows. *)
Theorem list_tasks_read_only (today : Z) (search status : option string)
    (assignee_id : option Z) (priority due : option string) (db : Table) :
  snd (list_tasks contains today search status assignee_id priority due db)
  = db
  /\ forall rows,
       fst (list_tasks contains today search status assignee_id priority
              due db) = inr rows ->
       (length rows <= size db)%nat.
Proof.
  rewrite list_tasks_run.
  destruct (priority_filter priority) as [e|pr]; cbn [fst snd];
    (split; [reflexivity |]); intros rows H; inversion H.
  rewrite length_map, (Permutation_length (merge_sort_Permutation _ _)).
  etransitivity; [apply length_filter_le |].
  unfold table_rows. now rewrite length_fmap, length_map_to_list.
Qed.

End ListTasksReadOnly.

Lemma update_task_never_clears_witness :
  (Task.assignee_id task_A <> None ->
   Task.assignee_id
     (Task.set_updated_at 5000 (Task.set_completed true task_A)) <> None)
  /\ (Task.due_date task_A <> None ->
      Task.due_date
        (Task.set_updated_at 5000 (Task.set_completed true task_A)) <> None).
Proof.
  apply (update_task_never_clears 5000 1 complete_only abc_db
           (snd (update_task 5000 1 complete_only abc_db)) true task_A
           (Task.set_updated_at 5000 (Task.set_completed true task_A))).
  - vm_compute. reflexivity.
  - reflexivity.
  - vm_compute. reflexivity.
Defined.
